(** * FortiGate topology aggregator

    A shallow embedding of [babylon_3d/fortigate_api_integration.py]:
    the REST client's fetch methods ([FortiGateAPIClient]), the topology
    builder ([NetworkTopologyBuilder.build_topology]) and the Babylon
    export ([NetworkTopologyBuilder.export_to_babylon_format]).

    Python values are loosely typed JSON; they are modelled by the
    inductive [value], dictionaries by stdpp's [gmap string value].  A
    Python expression that can raise is an [option]: [None] stands for
    the exception leaving the function. *)

From Stdlib Require Import ZArith String Ascii List Lia.
From Stdlib Require Import PrimFloat Uint63.
From stdpp Require Import base option list gmap strings pretty fin_maps.

Set Warnings "-register-all".
Set Default Proof Using "Type".
Local Open Scope string_scope.
Local Open Scope list_scope.
Local Open Scope Z_scope.

(** ** Python values *)

(** What [response.json()] can produce, and what the builder stores in
    its dictionaries.  A [float] is an IEEE binary64 number, as in
    CPython. *)
Inductive value : Type :=
| VNone
| VBool (b : bool)
| VInt (n : Z)
| VFloat (f : float)
| VStr (s : string)
| VList (l : list value)
| VDict (d : gmap string value).

Abbreviation dict := (gmap string value).

(** A dictionary display [{k1: v1, ...}] with distinct literal keys. *)
Definition mkdict (kvs : list (string * value)) : dict := list_to_map kvs.

(** [d.get(key, default)] on a dictionary. *)
Definition get (d : dict) (key : string) (dflt : value) : value :=
  default dflt (d !! key).

(** [o.get] exists only when [o] is a dictionary: on a list, a string, a
    number or [None] the attribute lookup raises AttributeError. *)
Definition as_dict (o : value) : option dict :=
  match o with
  | VDict d => Some d
  | _ => None
  end.

(** [s.replace] exists only on a string. *)
Definition as_str (o : value) : option string :=
  match o with
  | VStr s => Some s
  | _ => None
  end.

(** [v == s] for a string literal [s]: no other JSON value equals a
    string; [v] is [None] here when [d.get(key)] found no key (Python
    then yields the object None). *)
Definition eq_str (v : option value) (s : string) : bool :=
  match v with
  | Some (VStr s') => String.eqb s' s
  | _ => false
  end.

(** [s.replace(old, new)] for one-character [old] and [new]. *)
Fixpoint replace (old new : ascii) (s : string) : string :=
  match s with
  | EmptyString => EmptyString
  | String c s' =>
      String (if Ascii.eqb c old then new else c) (replace old new s')
  end.

(** The items [for x in v] visits.  A list gives its elements, a string
    its characters, a dictionary its keys (here in the map's order, not
    in insertion order); a number, a boolean or None is not iterable
    (TypeError). *)
Definition py_iter (v : value) : option (list value) :=
  match v with
  | VList l => Some l
  | VStr s => Some ((λ c, VStr (String c EmptyString)) <$> list_ascii_of_string s)
  | VDict d => Some (VStr <$> (map_to_list d).*1)
  | _ => None
  end.

(** [v[:n]]: lists and strings can be sliced, nothing else that JSON
    yields can (a dictionary rejects the slice as a key). *)
Definition py_slice (n : nat) (v : value) : option value :=
  match v with
  | VList l => Some (VList (take n l))
  | VStr s => Some (VStr (substring 0 n s))
  | _ => None
  end.

(** [len(v)]. *)
Definition py_len (v : value) : option nat :=
  match v with
  | VList l => Some (length l)
  | VStr s => Some (String.length s)
  | VDict d => Some (size d)
  | _ => None
  end.

(** [float(i)] for a loop index. *)
Definition float_of_nat (i : nat) : float :=
  PrimFloat.of_uint63 (Uint63.of_Z (Z.of_nat i)).

(** ** The HTTP session *)

(** A [requests] response: the status code and the parsed body
    ([json = None] when [response.json()] raises). *)
Record response : Type := Response {
  status_code : Z;
  json : option value;
}.

(** The client object.  [appliance] is what the session answers per URL;
    a URL without an entry is a request that raises (connection refused,
    timeout, TLS failure). *)
Record FortiGateAPIClient : Type := {
  host : string;
  port : Z;
  appliance : gmap string response;
}.

Definition base_url (self : FortiGateAPIClient) : string :=
  "https://" +:+ host self +:+ ":" +:+ pretty (port self).

(** [self.session.get(url)]. *)
Definition session_get (self : FortiGateAPIClient) (path : string) : option response :=
  appliance self !! (base_url self +:+ path).

(** [response.raise_for_status()]: raises on 4xx and 5xx. *)
Definition raise_for_status (r : response) : option unit :=
  if bool_decide (400 ≤ status_code r < 600) then None else Some ().

(** [data.get('results', [])] for a parsed body [data]. *)
Definition results_or_empty_list (data : value) : option value :=
  d ← as_dict data;
  Some (get d "results" (VList [])).

(** The body of [get_system_status]'s [try] once the body is parsed. *)
Definition status_data (data : value) : option dict :=
  d ← as_dict data;
  results ← as_dict (get d "results" (VDict ∅));
  Some (<["status" := get d "status" (VStr "unknown")]>
        (<["hostname" := get results "hostname" (get d "hostname" (VStr "FortiGate"))]>
        (<["version" := get d "version" (get results "version" (VStr "Unknown"))]>
        (<["serial" := get d "serial" (get results "serial" (VStr "Unknown"))]>
         results)))).

Definition get_system_status (self : FortiGateAPIClient) : dict :=
  default ∅
    (r ← session_get self "/api/v2/monitor/system/status?vdom=root";
     if bool_decide (status_code r = 200)
     then data ← json r; status_data data
     else Some ∅).

Definition get_system_info (self : FortiGateAPIClient) : value :=
  default (VDict ∅)
    (r ← session_get self "/api/v2/cmdb/system/global?vdom=root";
     if bool_decide (status_code r = 200)
     then json r
     else Some (VDict ∅)).

Definition get_interfaces (self : FortiGateAPIClient) : value :=
  default (VList [])
    (r ← session_get self "/api/v2/cmdb/system/interface";
     _ ← raise_for_status r;
     data ← json r;
     results_or_empty_list data).

(** The three monitor fetches share one shape: status 200 or the empty
    list. *)
Definition get_results (self : FortiGateAPIClient) (path : string) : value :=
  default (VList [])
    (r ← session_get self path;
     if bool_decide (status_code r = 200)
     then data ← json r; results_or_empty_list data
     else Some (VList [])).

Definition get_wifi_ap_list (self : FortiGateAPIClient) : value :=
  get_results self "/api/v2/monitor/wifi/managed_ap/select?vdom=root".

Definition get_managed_switches (self : FortiGateAPIClient) : value :=
  get_results self "/api/v2/cmdb/switch-controller/managed-switch?vdom=root".

Definition get_user_devices (self : FortiGateAPIClient) : value :=
  get_results self "/api/v2/monitor/user/device/query?vdom=root".

(** ** The topology under construction *)

(** [self.topology]: the three keys of the Python dictionary are fixed,
    so it is a record; devices and connections are dictionaries, as the
    builder appends them. *)
Record Topology : Type := {
  devices : list dict;
  connections : list dict;
  metadata : dict;
}.

Record NetworkTopologyBuilder : Type := {
  api_client : FortiGateAPIClient;
  topology : Topology;
}.

(** [NetworkTopologyBuilder.__init__]: the topology starts empty. *)
Definition empty_topology : Topology :=
  {| devices := [];
     connections := [];
     metadata := mkdict [("last_updated", VNone); ("fortigate_info", VDict ∅)] |}.

Definition new_builder (api_client : FortiGateAPIClient) : NetworkTopologyBuilder :=
  {| api_client := api_client; topology := empty_topology |}.

(** [self.topology["devices"].append(device)] followed by
    [self.topology["connections"].append(conn)]. *)
Definition append_device (t : Topology) (device : dict) : Topology :=
  {| devices := devices t ++ [device];
     connections := connections t;
     metadata := metadata t |}.

Definition append_connection (t : Topology) (conn : dict) : Topology :=
  {| devices := devices t;
     connections := connections t ++ [conn];
     metadata := metadata t |}.

(** [self.topology["metadata"][key] = v]. *)
Definition set_metadata (key : string) (v : value) (t : Topology) : Topology :=
  {| devices := devices t;
     connections := connections t;
     metadata := <[key := v]> (metadata t) |}.

(** The connection dictionary every loop appends; the source is the
    literal "fortigate_main". *)
Definition connection (target : value) (type : string) (bandwidth : value) : dict :=
  mkdict [("source", VStr "fortigate_main");
          ("target", target);
          ("type", VStr type);
          ("bandwidth", bandwidth)].

Definition position (x y z : value) : value :=
  VDict (mkdict [("x", x); ("y", y); ("z", z)]).

(** A [for] loop whose body may raise: the state is threaded through the
    items, the first exception ends the loop. *)
Fixpoint for_each {A S : Type} (body : S → A → option S) (items : list A) (s : S) : option S :=
  match items with
  | [] => Some s
  | x :: items' => s' ← body s x; for_each body items' s'
  end.

(** [enumerate(l, start)]. *)
Fixpoint enumerate_from {A : Type} (start : nat) (l : list A) : list (nat * A) :=
  match l with
  | [] => []
  | x :: l' => (start, x) :: enumerate_from (S start) l'
  end.

(** [first_result] of [build_topology]: the "results" object of the
    system-info body, or the first element when it is a non-empty list,
    or the empty dictionary. *)
Definition first_result (system_info : value) : option value :=
  info ← as_dict system_info;
  let results := get info "results" (VDict ∅) in
  Some (match results with
        | VDict _ => results
        | VList (r :: _) => r
        | _ => VDict ∅
        end).

Definition fortigate_device (host : string) (system_status first_result : dict) : dict :=
  mkdict [("id", VStr "fortigate_main");
          ("name", get system_status "hostname" (VStr "FortiGate"));
          ("type", VStr "firewall");
          ("model", get system_status "model" (get first_result "platform_str" (VStr "Unknown")));
          ("serial", get system_status "serial" (VStr "Unknown"));
          ("version", get system_status "version" (VStr "Unknown"));
          ("ip", VStr host);
          ("position", position (VInt 0) (VInt 0) (VInt 0));
          ("metadata", VDict (mkdict
             [("status", get system_status "status" (VStr "unknown"));
              ("cpu_usage", get system_status "cpu_usage" (VInt 0));
              ("memory_usage", get system_status "mem_usage" (VInt 0));
              ("uptime", get system_status "uptime" (VInt 0))]))].

(** The test of the interface loop and of the final count:
    [iface.get('status') == 'up']. *)
Definition is_up (iface : dict) : bool := eq_str (iface !! "status") "up".

(** [len([i for i in interfaces if i.get('status') == 'up'])]. *)
Definition count_up (interfaces : value) : option nat :=
  items ← py_iter interfaces;
  ifaces ← mapM as_dict items;
  Some (length (List.filter is_up ifaces)).

(** ** The Babylon export *)

(** The model dictionary built for one device; [device["id"]] and the
    other subscripts raise KeyError on a missing key. *)
Definition babylon_model (device : dict) : option dict :=
  id ← device !! "id";
  name ← device !! "name";
  type ← device !! "type";
  pos ← device !! "position";
  Some (mkdict [("name", id);
                ("displayName", name);
                ("category", type);
                ("position", pos);
                ("tags", VList [type]);
                ("metadata", get device "metadata" (VDict ∅));
                ("properties", VDict (mkdict
                   [("ip", get device "ip" (VStr ""));
                    ("model", get device "model" (VStr ""));
                    ("serial", get device "serial" (VStr ""))]))]).

Definition babylon_connection (conn : dict) : option dict :=
  source ← conn !! "source";
  target ← conn !! "target";
  type ← conn !! "type";
  Some (mkdict [("source", source);
                ("target", target);
                ("type", type);
                ("bandwidth", get conn "bandwidth" (VInt 0))]).

Record BabylonData : Type := {
  version : string;
  models : list dict;
  babylon_connections : list dict;
  babylon_metadata : dict;
}.

Definition export_to_babylon_format (self : NetworkTopologyBuilder) : option BabylonData :=
  let t := topology self in
  models ← mapM babylon_model (devices t);
  conns ← mapM babylon_connection (connections t);
  Some {| version := "2.0";
          models := models;
          babylon_connections := conns;
          babylon_metadata := metadata t |}.

(** ** The builder *)

Section Builder.

(** [repr] of a float, a list or a dictionary, as CPython prints it.  The
    builder only ever splices that text into a device id. *)
Variable py_repr : value → string.

(** [str(v)], what an f-string field [{v}] renders. *)
Definition py_str (v : value) : string :=
  match v with
  | VStr s => s
  | VNone => "None"
  | VBool true => "True"
  | VBool false => "False"
  | VInt n => pretty n
  | VFloat _ | VList _ | VDict _ => py_repr v
  end.

(** [f"interface_{iface.get('name', 'unknown')}"]. *)
Definition interface_id (iface : dict) : string :=
  "interface_" +:+ py_str (get iface "name" (VStr "unknown")).

Definition interface_device (iface : dict) : dict :=
  mkdict [("id", VStr (interface_id iface));
          ("name", get iface "name" (VStr "Unknown Interface"));
          ("type", VStr "interface");
          ("ip", get iface "ip" (VStr ""));
          ("subnet", get iface "subnet" (VStr ""));
          ("connected_to", VStr "fortigate_main");
          ("position", position (VInt 2) (VInt 0) (VInt 0));
          ("metadata", VDict (mkdict
             [("mac", get iface "macaddr" (VStr ""));
              ("mtu", get iface "mtu" (VInt 1500));
              ("speed", get iface "speed" (VInt 0))]))].

(** The body of [for iface in interfaces]. *)
Definition add_interface (t : Topology) (iface : value) : option Topology :=
  iface ← as_dict iface;
  if is_up iface then
    let interface_device := interface_device iface in
    let t := append_device t interface_device in
    target ← interface_device !! "id";
    Some (append_connection t (connection target "network" (get iface "speed" (VInt 0))))
  else Some t.

(** [f"switch_{switch.get('name', f'switch_{i}')}"]. *)
Definition switch_id (i : nat) (switch : dict) : string :=
  "switch_" +:+ py_str (get switch "name" (VStr ("switch_" +:+ pretty i))).

Definition switch_device (i : nat) (switch : dict) : dict :=
  mkdict [("id", VStr (switch_id i switch));
          ("name", get switch "name" (VStr ("Switch " +:+ pretty i)));
          ("type", VStr "switch");
          ("model", get switch "model" (VStr "Unknown"));
          ("serial", get switch "serial" (VStr "Unknown"));
          ("ip", get switch "ip" (VStr ""));
          ("position", position (VInt (-3)) (VInt 0) (VInt (Z.of_nat i * 2)));
          ("connected_to", VStr "fortigate_main");
          ("metadata", VDict (mkdict
             [("status", get switch "status" (VStr "unknown"));
              ("ports", get switch "num_ports" (VInt 0));
              ("firmware", get switch "sw_version" (VStr "Unknown"))]))].

(** The body of [for i, switch in enumerate(switches[:10])]. *)
Definition add_switch (t : Topology) (item : nat * value) : option Topology :=
  let '(i, switch) := item in
  switch ← as_dict switch;
  let switch_device := switch_device i switch in
  let t := append_device t switch_device in
  target ← switch_device !! "id";
  Some (append_connection t (connection target "network" (VInt 1000))).

(** [f"ap_{ap.get('name', f'ap_{i}')}"]. *)
Definition ap_id (i : nat) (ap : dict) : string :=
  "ap_" +:+ py_str (get ap "name" (VStr ("ap_" +:+ pretty i))).

Definition ap_device (i : nat) (ap : dict) : dict :=
  mkdict [("id", VStr (ap_id i ap));
          ("name", get ap "name" (VStr ("AP " +:+ pretty i)));
          ("type", VStr "access_point");
          ("model", get ap "model" (VStr "Unknown"));
          ("serial", get ap "serial" (VStr "Unknown"));
          ("ip", get ap "ip" (VStr ""));
          ("position", position (VInt 3) (VInt 0)
                         (VFloat (PrimFloat.mul (float_of_nat i) 1.5%float)));
          ("connected_to", VStr "fortigate_main");
          ("metadata", VDict (mkdict
             [("status", get ap "status" (VStr "unknown"));
              ("wifi_clients", get ap "wifi_clients" (VInt 0));
              ("radio_1", get ap "radio_1" (VDict ∅));
              ("radio_2", get ap "radio_2" (VDict ∅))]))].

(** The body of [for i, ap in enumerate(access_points[:20])]. *)
Definition add_access_point (t : Topology) (item : nat * value) : option Topology :=
  let '(i, ap) := item in
  ap ← as_dict ap;
  let ap_device := ap_device i ap in
  let t := append_device t ap_device in
  target ← ap_device !! "id";
  radio_1 ← as_dict (get ap "radio_1" (VDict ∅));
  Some (append_connection t (connection target "wifi" (get radio_1 "max_bandwidth" (VInt 0)))).

(** [f"device_{device.get('mac', f'device_{i}').replace(':', '_')}"]:
    [replace] is a method of strings only. *)
Definition user_device_id (i : nat) (device : dict) : option string :=
  mac ← as_str (get device "mac" (VStr ("device_" +:+ pretty i)));
  Some ("device_" +:+ replace ":" "_" mac).

Definition user_device (i : nat) (device : dict) (id : string) : dict :=
  mkdict [("id", VStr id);
          ("name", get device "hostname" (VStr ("Device " +:+ pretty i)));
          ("type", VStr "endpoint");
          ("ip", get device "ip" (VStr ""));
          ("mac", get device "mac" (VStr ""));
          ("position", position (VInt 5) (VInt 0)
                         (VFloat (PrimFloat.mul (float_of_nat i) 0.5%float)));
          ("connected_to", VStr "fortigate_main");
          ("metadata", VDict (mkdict
             [("os", get device "os_type" (VStr "Unknown"));
              ("user", get device "user" (VStr "Unknown"));
              ("last_seen", get device "last_seen" (VStr ""));
              ("device_type", get device "devtype" (VStr "Unknown"))]))].

(** The body of [for i, device in enumerate(user_devices[:50])]. *)
Definition add_user_device (t : Topology) (item : nat * value) : option Topology :=
  let '(i, device) := item in
  device ← as_dict device;
  id ← user_device_id i device;
  let user_device := user_device i device id in
  let t := append_device t user_device in
  target ← user_device !! "id";
  Some (append_connection t (connection target "endpoint" (VInt 100))).

(** The items of [for x in v[:cap]]. *)
Definition first_items (cap : nat) (v : value) : option (list value) :=
  head ← py_slice cap v;
  py_iter head.

(** [for i, x in enumerate(v[:cap]): body]. *)
Definition for_first (cap : nat) (body : Topology → nat * value → option Topology)
    (v : value) (t : Topology) : option Topology :=
  items ← first_items cap v;
  for_each body (enumerate_from 0 items) t.

(** [build_topology], with [now] standing for
    [datetime.now().isoformat()].  The result is [self.topology] after
    the call: the devices and connections are appended to those the
    builder already holds.  The two [try] blocks around the access-point
    and endpoint fetches never see an exception, the client's methods
    catch their own. *)
Definition build_topology (self : NetworkTopologyBuilder) (now : string) : option Topology :=
  let client := api_client self in
  let system_status := get_system_status client in
  let system_info := get_system_info client in
  first ← first_result system_info;
  first ← as_dict first;
  let fortigate_device := fortigate_device (host client) system_status first in
  let t := append_device (topology self) fortigate_device in
  let t := set_metadata "fortigate_info" (VDict fortigate_device) t in
  let interfaces := get_interfaces client in
  items ← py_iter interfaces;
  t ← for_each add_interface items t;
  let switches := get_managed_switches client in
  t ← for_first 10 add_switch switches t;
  let access_points := get_wifi_ap_list client in
  t ← for_first 20 add_access_point access_points t;
  let user_devices := get_user_devices client in
  t ← for_first 50 add_user_device user_devices t;
  let t := set_metadata "last_updated" (VStr now) t in
  n_switch ← py_len switches;
  n_ap ← py_len access_points;
  n_endpoint ← py_len user_devices;
  n_interface ← count_up interfaces;
  Some (set_metadata "device_counts"
          (VDict (mkdict [("firewall", VInt 1);
                          ("switch", VInt (Z.of_nat n_switch));
                          ("access_point", VInt (Z.of_nat n_ap));
                          ("endpoint", VInt (Z.of_nat n_endpoint));
                          ("interface", VInt (Z.of_nat n_interface))])) t).

(** *** What a run adds

    Each loop iteration appends one device and its connection.  The
    pairs below are what the four loop bodies append, as functions of
    the fetched record. *)

Definition interface_entry (iface : dict) : dict * dict :=
  (interface_device iface,
   connection (VStr (interface_id iface)) "network" (get iface "speed" (VInt 0))).

Definition switch_entry (item : nat * dict) : dict * dict :=
  (switch_device item.1 item.2,
   connection (VStr (switch_id item.1 item.2)) "network" (VInt 1000)).

Definition ap_entry (item : nat * dict) : option (dict * dict) :=
  radio_1 ← as_dict (get item.2 "radio_1" (VDict ∅));
  Some (ap_device item.1 item.2,
        connection (VStr (ap_id item.1 item.2)) "wifi" (get radio_1 "max_bandwidth" (VInt 0))).

Definition user_entry (item : nat * dict) : option (dict * dict) :=
  id ← user_device_id item.1 item.2;
  Some (user_device item.1 item.2 id,
        connection (VStr id) "endpoint" (VInt 100)).

(** The metadata a fresh builder ends with. *)
Definition final_metadata (root : dict) (now : string) (n_switch n_ap n_endpoint n_interface : nat) : dict :=
  <["device_counts" := VDict (mkdict [("firewall", VInt 1);
                                     ("switch", VInt (Z.of_nat n_switch));
                                     ("access_point", VInt (Z.of_nat n_ap));
                                     ("endpoint", VInt (Z.of_nat n_endpoint));
                                     ("interface", VInt (Z.of_nat n_interface))])]>
    (<["last_updated" := VStr now]>
       (<["fortigate_info" := VDict root]>
          (metadata empty_topology))).

(** [built c now t]: [t] is the topology a fresh builder over client [c]
    returns, spelled out from what the client fetched. *)
Inductive built (c : FortiGateAPIClient) (now : string) : Topology → Prop :=
| Built (first : dict) (ifaces switches aps users : list dict)
        (ap_part user_part : list (dict * dict)) (n_switch n_ap n_endpoint : nat) :
    first_result (get_system_info c) = Some (VDict first) →
    py_iter (get_interfaces c) = Some (VDict <$> ifaces) →
    first_items 10 (get_managed_switches c) = Some (VDict <$> switches) →
    first_items 20 (get_wifi_ap_list c) = Some (VDict <$> aps) →
    first_items 50 (get_user_devices c) = Some (VDict <$> users) →
    mapM ap_entry (enumerate_from 0 aps) = Some ap_part →
    mapM user_entry (enumerate_from 0 users) = Some user_part →
    py_len (get_managed_switches c) = Some n_switch →
    py_len (get_wifi_ap_list c) = Some n_ap →
    py_len (get_user_devices c) = Some n_endpoint →
    let root := fortigate_device (host c) (get_system_status c) first in
    let entries := (interface_entry <$> List.filter is_up ifaces)
                   ++ (switch_entry <$> enumerate_from 0 switches)
                   ++ ap_part ++ user_part in
    built c now
      {| devices := root :: entries.*1;
         connections := entries.*2;
         metadata := final_metadata root now n_switch n_ap n_endpoint
                       (length (List.filter is_up ifaces)) |}.

End Builder.

(** ** Reading a topology *)

(** The "id" entries of the devices, in order ([None] for a device
    without one). *)
Definition device_ids (t : Topology) : list (option value) :=
  (λ d : dict, d !! "id") <$> devices t.

(** [d["type"] == ty]. *)
Definition has_type (ty : string) (d : dict) : bool := eq_str (d !! "type") ty.

(** The target of the connection is a string that starts with [p]. *)
Definition targets (p : string) (conn : dict) : bool :=
  match conn !! "target" with
  | Some (VStr s) => String.prefix p s
  | _ => false
  end.

(** ** Vocabulary of the properties *)

(** The topology after a run of loop iterations that appended the pairs
    [entries] (a device and its connection each). *)
Definition extend (t : Topology) (entries : list (dict * dict)) : Topology :=
  {| devices := devices t ++ entries.*1;
     connections := connections t ++ entries.*2;
     metadata := metadata t |}.

(** A device and the connection appended with it: the device carries the
    id [prefix +:+ key] and the type [ty]; the connection, of type
    [link], leaves the root for that id. *)
Definition entry_of (prefix ty link : string) (p : dict * dict) : Prop :=
  ∃ key : string,
    p.1 !! "id" = Some (VStr (prefix +:+ key)) ∧
    p.1 !! "type" = Some (VStr ty) ∧
    p.2 !! "source" = Some (VStr "fortigate_main") ∧
    p.2 !! "target" = Some (VStr (prefix +:+ key)) ∧
    p.2 !! "type" = Some (VStr link).

(** The connection leaves the root and reaches the device it was
    appended with. *)
Definition linked (dev conn : dict) : Prop :=
  conn !! "source" = Some (VStr "fortigate_main") ∧
  is_Some (dev !! "id") ∧
  conn !! "target" = dev !! "id".

(** The text of a device's id (empty when the device has none). *)
Definition id_text (d : dict) : string :=
  match d !! "id" with
  | Some (VStr s) => s
  | _ => ""
  end.

(** [s] begins with [p]. *)
Definition starts (p s : string) : Prop := ∃ k, s = p +:+ k.

(** The reading of the data model's "id: string (unique)": no two
    devices of a returned topology share an id, whatever was fetched. *)
Definition device_ids_unique : Prop :=
  ∀ (py_repr : value → string) c now t,
    build_topology py_repr (new_builder c) now = Some t → NoDup (device_ids t).

(** What [export_to_babylon_format] subscripts: a device needs "id",
    "name", "type" and "position", a connection "source", "target" and
    "type". *)
Definition exportable_device (d : dict) : Prop :=
  is_Some (d !! "id") ∧ is_Some (d !! "name") ∧
  is_Some (d !! "type") ∧ is_Some (d !! "position").

Definition exportable_connection (conn : dict) : Prop :=
  is_Some (conn !! "source") ∧ is_Some (conn !! "target") ∧ is_Some (conn !! "type").

Definition exportable_entry (p : dict * dict) : Prop :=
  exportable_device p.1 ∧ exportable_connection p.2.

(** The model is the re-projection of the device. *)
Definition model_of (device model : dict) : Prop :=
  model !! "name" = device !! "id" ∧
  model !! "displayName" = device !! "name" ∧
  model !! "category" = device !! "type" ∧
  model !! "position" = device !! "position" ∧
  model !! "tags" = (λ ty, VList [ty]) <$> device !! "type" ∧
  model !! "metadata" = Some (get device "metadata" (VDict ∅)) ∧
  model !! "properties"
  = Some (VDict (mkdict [("ip", get device "ip" (VStr ""));
                         ("model", get device "model" (VStr ""));
                         ("serial", get device "serial" (VStr ""))])).

(** The exported connection has the four fields of the original. *)
Definition connection_of (conn exported : dict) : Prop :=
  exported !! "source" = conn !! "source" ∧
  exported !! "target" = conn !! "target" ∧
  exported !! "type" = conn !! "type" ∧
  exported !! "bandwidth" = Some (get conn "bandwidth" (VInt 0)) ∧
  (is_Some (conn !! "bandwidth") → exported !! "bandwidth" = conn !! "bandwidth") ∧
  ∀ key, is_Some (exported !! key) → key ∈ ["source"; "target"; "type"; "bandwidth"].

(** The chain as the specification words it: the top-level field, else
    the field of the nested "results" object, else the literal default. *)
Definition three_tier (top nested : dict) (key dflt : string) : value :=
  get top key (get nested key (VStr dflt)).

(** The specification's reading of step 1: every root field follows
    [three_tier], with "Unknown" (for the status, "unknown") as the
    default. *)
Definition root_fields_three_tier : Prop :=
  ∀ (py_repr : value → string) c now t r (data results root : dict),
    session_get c "/api/v2/monitor/system/status?vdom=root" = Some r →
    status_code r = 200 →
    json r = Some (VDict data) →
    get data "results" (VDict ∅) = VDict results →
    build_topology py_repr (new_builder c) now = Some t →
    head (devices t) = Some root →
    root !! "name" = Some (three_tier data results "hostname" "Unknown") ∧
    root !! "serial" = Some (three_tier data results "serial" "Unknown") ∧
    root !! "version" = Some (three_tier data results "version" "Unknown") ∧
    root !! "model" = Some (three_tier data results "model" "Unknown") ∧
    ∃ md : dict, root !! "metadata" = Some (VDict md) ∧
                 md !! "status" = Some (three_tier data results "status" "unknown").

(** The request raised, or the answer is not a 200 with a JSON body. *)
Definition failed (c : FortiGateAPIClient) (path : string) : Prop :=
  ∀ r, session_get c path = Some r → status_code r ≠ 200 ∨ json r = None.

(** The status request is answered 200 with the JSON object [data],
    whose "results" entry is the object [results] (the empty one when
    [data] has no "results"). *)
Definition status_answer (c : FortiGateAPIClient) (data results : dict) : Prop :=
  ∃ r, session_get c "/api/v2/monitor/system/status?vdom=root" = Some r ∧
       status_code r = 200 ∧
       json r = Some (VDict data) ∧
       get data "results" (VDict ∅) = VDict results.

(** ** Sample appliances *)

(** A rendering for the examples below; none of them formats a float or
    a container. *)
Definition sample_repr : value → string := λ _, "<object>".

Definition sample_now : string := "2026-01-01T00:00:00".

Definition ok (body : value) : response := {| status_code := 200; json := Some body |}.

Definition results_of (records : list value) : value :=
  VDict (mkdict [("results", VList records)]).

Definition record (fields : list (string * value)) : value := VDict (mkdict fields).

(** A client for host "fw", port 443, over the given answers by path. *)
Definition client_of (answers : list (string * response)) : FortiGateAPIClient :=
  {| host := "fw";
     port := 443;
     appliance := list_to_map (prod_map (λ path, "https://fw:443" +:+ path) id <$> answers) |}.

(** A status body, and the "results" object inside it. *)
Definition sample_status_results : dict :=
  mkdict [("hostname", VStr "edge-fw"); ("model", VStr "FGT60F")].

Definition sample_status : dict :=
  mkdict [("serial", VStr "FGT60F0000000001");
          ("version", VStr "v7.4.1");
          ("status", VStr "success");
          ("results", VDict sample_status_results)].

(** An appliance with two interfaces (one up), eleven switches, one
    access point and one endpoint. *)
Definition sample_client : FortiGateAPIClient :=
  client_of
    [("/api/v2/monitor/system/status?vdom=root",
      ok (VDict sample_status));
     ("/api/v2/cmdb/system/global?vdom=root",
      ok (record [("results", record [("platform_str", VStr "FortiGate-60F")])]));
     ("/api/v2/cmdb/system/interface",
      ok (results_of [record [("name", VStr "wan1"); ("status", VStr "up")];
                      record [("name", VStr "wan2"); ("status", VStr "down")]]));
     ("/api/v2/cmdb/switch-controller/managed-switch?vdom=root",
      ok (results_of ((λ n : nat, record [("name", VStr ("sw" +:+ pretty n))]) <$> seq 0 11)));
     ("/api/v2/monitor/wifi/managed_ap/select?vdom=root",
      ok (results_of [record [("name", VStr "ap-lobby");
                              ("radio_1", record [("max_bandwidth", VInt 866)])]]));
     ("/api/v2/monitor/user/device/query?vdom=root",
      ok (results_of [record [("mac", VStr "aa:bb:cc:dd:ee:ff");
                              ("hostname", VStr "laptop")]]))].

(** An appliance that answers the status request only. *)
Definition status_only_client : FortiGateAPIClient :=
  client_of
    [("/api/v2/monitor/system/status?vdom=root",
      ok (record [("serial", VStr "FGT60F0000000001")]))].

(** An appliance whose status body carries a hostname at the top level
    and another one in "results". *)
Definition hostname_results : dict := mkdict [("hostname", VStr "nested")].

Definition hostname_data : dict :=
  mkdict [("hostname", VStr "top"); ("results", VDict hostname_results)].

Definition hostname_client : FortiGateAPIClient :=
  client_of [("/api/v2/monitor/system/status?vdom=root", ok (VDict hostname_data))].

(** An appliance whose status body carries a serial at the top level
    and a list as "results". *)
Definition results_list_client : FortiGateAPIClient :=
  client_of
    [("/api/v2/monitor/system/status?vdom=root",
      ok (record [("serial", VStr "S1"); ("results", VList [])]))].

(** An appliance with two up interfaces of the same name. *)
Definition twin_client : FortiGateAPIClient :=
  client_of
    [("/api/v2/cmdb/system/interface",
      ok (results_of [record [("name", VStr "wan1"); ("status", VStr "up")];
                      record [("name", VStr "wan1"); ("status", VStr "up")]]))].

(** [o] is a returned value, not an exception. *)
Definition returns {A} (o : option A) : bool :=
  match o with
  | Some _ => true
  | None => false
  end.

(** ** The other fetches of the client *)

(** The configuration fetches go by [raise_for_status] and return the
    "results" entry of the body, or [[]] when anything raises.  (The
    class defines [get_firewall_policies] twice; the second definition,
    the one with [return []], is the method.) *)
Definition get_list (self : FortiGateAPIClient) (path : string) : value :=
  default (VList [])
    (r ← session_get self path;
     _ ← raise_for_status r;
     data ← json r;
     results_or_empty_list data).

Definition get_firewall_policies (self : FortiGateAPIClient) : value :=
  get_list self "/api/v2/cmdb/firewall/policy".

Definition get_addresses (self : FortiGateAPIClient) : value :=
  get_list self "/api/v2/cmdb/firewall/address".

Definition get_vips (self : FortiGateAPIClient) : value :=
  get_list self "/api/v2/cmdb/firewall/vip".

Definition get_dhcp_servers (self : FortiGateAPIClient) : value :=
  get_list self "/api/v2/cmdb/system/dhcp/server".

Definition get_dhcp_leases (self : FortiGateAPIClient) : value :=
  get_list self "/api/v2/monitor/system/dhcp/lease".

(** [get_wifi_settings] and [get_switch_controller] return the whole
    body, or [{}]. *)
Definition get_body (self : FortiGateAPIClient) (path : string) : value :=
  default (VDict ∅)
    (r ← session_get self path;
     _ ← raise_for_status r;
     json r).

Definition get_wifi_settings (self : FortiGateAPIClient) : value :=
  get_body self "/api/v2/cmdb/wifi".

Definition get_switch_controller (self : FortiGateAPIClient) : value :=
  get_body self "/api/v2/cmdb/switch-controller".

(** ** Connecting *)

(** The fields of the Python client that the fetch methods do not read,
    kept beside [FortiGateAPIClient]: the credentials and, per URL, the
    content-type header of the answer. *)
Record Session : Type := {
  client : FortiGateAPIClient;
  username : string;
  password : string;
  api_token : option string;
  verify_ssl : bool;
  content_type : gmap string string;
}.

(** [FortiGateAPIClient(host, username, password, port, verify_ssl,
    api_token)] talking to an appliance. *)
Definition FortiGateAPIClient_init (host username password : string) (port : Z)
    (verify_ssl : bool) (api_token : option string)
    (appliance : gmap string response) (content_type : gmap string string) : Session :=
  {| client := {| host := host; port := port; appliance := appliance |};
     username := username;
     password := password;
     api_token := api_token;
     verify_ssl := verify_ssl;
     content_type := content_type |}.

(** [if self.api_token:]: None and the empty string are false. *)
Definition has_token (self : Session) : bool :=
  match api_token self with
  | Some (String _ _) => true
  | _ => false
  end.

(** [response.headers.get('content-type', '')] for the answer at [path]. *)
Definition content_type_at (self : Session) (path : string) : string :=
  default "" (content_type self !! (base_url (client self) +:+ path)).

Definition login (self : Session) : bool :=
  if has_token self then
    match session_get (client self) "/api/v2/monitor/system/status?vdom=root" with
    | Some r =>
        bool_decide (status_code r = 200)
        && String.prefix "application/json"
             (content_type_at self "/api/v2/monitor/system/status?vdom=root")
    | None => false
    end
  else false.

Definition test_connection (self : Session) : bool :=
  if negb (login self) then false
  else
    match session_get (client self) "/api/v2/monitor/system/status" with
    | Some r => bool_decide (status_code r = 200)
    | None => false
    end.

(** ** The command line of the integration module *)

Record Args : Type := {
  arg_host : string;
  arg_username : string;
  arg_password : string;
  arg_port : Z;
  arg_output : string;
  arg_babylon_output : string;
  arg_no_ssl_verify : bool;
}.

(** What a run of [main] ends in; writing the two files is not modelled
    further than by what is written. *)
Inductive main_outcome : Type :=
| NotConnected
| Raised
| Saved (output : string) (topology : Topology)
        (babylon_output : string) (babylon : BabylonData).

(** What follows the connection test in both command lines: build,
    save, export. *)
Definition discover (py_repr : value → string) (api_client : Session) (now : string)
    (output babylon_output : string) : main_outcome :=
  let builder := new_builder (client api_client) in
  match build_topology py_repr builder now with
  | None => Raised
  | Some topology =>
      match export_to_babylon_format
              {| api_client := client api_client; topology := topology |} with
      | None => Raised
      | Some babylon => Saved output topology babylon_output babylon
      end
  end.

Definition main (py_repr : value → string) (args : Args)
    (appliance : gmap string response) (content_type : gmap string string)
    (now : string) : main_outcome :=
  let api_client :=
    FortiGateAPIClient_init (arg_host args) (arg_username args) (arg_password args)
      (arg_port args) (negb (arg_no_ssl_verify args)) None appliance content_type in
  if negb (test_connection api_client) then NotConnected
  else discover py_repr api_client now (arg_output args) (arg_babylon_output args).

(** ** Configuration ([fortigate_config.py]) *)

(** [FORTIGATE_CONFIG], once loaded from the environment. *)
Record FortigateConfig : Type := {
  cfg_host : string;
  cfg_port : Z;
  cfg_username : string;
  cfg_password : string;
  cfg_verify_ssl : bool;
}.

Definition update_fortigate_config (host : option string) (port : option Z)
    (username password : option string) (verify_ssl : option bool)
    (cfg : FortigateConfig) : FortigateConfig :=
  {| cfg_host := default (cfg_host cfg) host;
     cfg_port := default (cfg_port cfg) port;
     cfg_username := default (cfg_username cfg) username;
     cfg_password := default (cfg_password cfg) password;
     cfg_verify_ssl := default (cfg_verify_ssl cfg) verify_ssl |}.

Definition validate_config (cfg : FortigateConfig) : bool :=
  if String.eqb (cfg_host cfg) "" then false
  else if String.eqb (cfg_username cfg) "" then false
  else if String.eqb (cfg_password cfg) "YOUR_PASSWORD_HERE" then false
  else true.

(** [create_env_file], over whether [.env] and [.env.example] exist. *)
Definition create_env_file (env_exists example_exists : bool) : bool :=
  negb env_exists && example_exists.

(** ** The discovery runner ([run_fortigate_discovery.py]) *)

Record RunArgs : Type := {
  run_host : option string;
  run_username : option string;
  run_password : option string;
  run_port : option Z;
  run_no_ssl_verify : bool;
  run_output : option string;
  run_babylon_output : option string;
  run_config : bool;
  run_create_env : bool;
}.

Inductive run_outcome : Type :=
| EnvFile (created : bool)
| ConfigShown
| Exit (code : Z)
| Ran (result : main_outcome).

(** The configuration the runner works with after the command-line
    overrides. *)
Definition runner_config (args : RunArgs) (cfg : FortigateConfig) : FortigateConfig :=
  update_fortigate_config (run_host args) (run_port args) (run_username args)
    (run_password args) (Some (negb (run_no_ssl_verify args))) cfg.

(** [a or b] on an optional string: None and the empty string are false. *)
Definition or_else (a : option string) (b : string) : string :=
  match a with
  | Some (String c s) => String c s
  | _ => b
  end.

Definition run_main (py_repr : value → string) (args : RunArgs) (cfg : FortigateConfig)
    (env_exists example_exists : bool)
    (appliance : gmap string response) (content_type : gmap string string)
    (now : string) : run_outcome :=
  if run_create_env args then EnvFile (create_env_file env_exists example_exists)
  else if run_config args then ConfigShown
  else
    let config := runner_config args cfg in
    if negb (validate_config config) then Exit 1
    else
      let api_client :=
        FortiGateAPIClient_init (cfg_host config) (cfg_username config) (cfg_password config)
          (cfg_port config) (cfg_verify_ssl config) None appliance content_type in
      if negb (test_connection api_client) then Exit 1
      else Ran (discover py_repr api_client now
                  (or_else (run_output args) "fortinet_topology.json")
                  (or_else (run_babylon_output args) "babylon_topology.json")).

(** ** Vocabulary of the further properties *)

(** A device and its connection as one of the four loops appends them,
    with the index the loop had. *)
Inductive produced (py_repr : value → string) : dict * dict → Prop :=
| produced_interface iface :
    is_up iface = true → produced py_repr (interface_entry py_repr iface)
| produced_switch i switch :
    (i < 10)%nat → produced py_repr (switch_entry py_repr (i, switch))
| produced_ap i ap p :
    (i < 20)%nat → ap_entry py_repr (i, ap) = Some p → produced py_repr p
| produced_user i device p :
    (i < 50)%nat → user_entry (i, device) = Some p → produced py_repr p.

(** The topology a builder holding [old] returns when a fresh builder
    would return [t]. *)
Definition onto (old t : Topology) : Topology :=
  {| devices := devices old ++ devices t;
     connections := connections old ++ connections t;
     metadata := metadata t ∪ metadata old |}.

(** The record reads [key] as nothing or as a string / a dictionary. *)
Definition string_or_absent (d : dict) (key : string) : Prop :=
  ∀ v, d !! key = Some v → ∃ s, v = VStr s.

Definition dict_or_absent (d : dict) (key : string) : Prop :=
  ∀ v, d !! key = Some v → ∃ r, v = VDict r.

(** The "type" entries of the devices, in order. *)
Definition device_types (t : Topology) : list (option value) :=
  (λ d : dict, d !! "type") <$> devices t.

(** The heights of the access points ([i * 1.5]) and of the endpoints
    ([i * 0.5]) for the indices the caps allow, as decimals. *)
Definition ap_heights : list float :=
  [0.0; 1.5; 3.0; 4.5; 6.0; 7.5; 9.0; 10.5; 12.0; 13.5; 15.0; 16.5; 18.0;
   19.5; 21.0; 22.5; 24.0; 25.5; 27.0; 28.5]%float.

Definition endpoint_heights : list float :=
  [0.0; 0.5; 1.0; 1.5; 2.0; 2.5; 3.0; 3.5; 4.0; 4.5; 5.0; 5.5; 6.0; 6.5;
   7.0; 7.5; 8.0; 8.5; 9.0; 9.5; 10.0; 10.5; 11.0; 11.5; 12.0; 12.5; 13.0;
   13.5; 14.0; 14.5; 15.0; 15.5; 16.0; 16.5; 17.0; 17.5; 18.0; 18.5; 19.0;
   19.5; 20.0; 20.5; 21.0; 21.5; 22.0; 22.5; 23.0; 23.5; 24.0; 24.5]%float.

(** The URLs [build_topology] requests, after the base URL. *)
Definition topology_paths : list string :=
  ["/api/v2/monitor/system/status?vdom=root";
   "/api/v2/cmdb/system/global?vdom=root";
   "/api/v2/cmdb/system/interface";
   "/api/v2/cmdb/switch-controller/managed-switch?vdom=root";
   "/api/v2/monitor/wifi/managed_ap/select?vdom=root";
   "/api/v2/monitor/user/device/query?vdom=root"].

(** A record with the status "up" and nothing else. *)
Definition unnamed_record : dict := mkdict [("status", VStr "up")].

(** An appliance whose records carry no name and no MAC: two up
    interfaces, two switches, an access point and two endpoints. *)
Definition unnamed_client : FortiGateAPIClient :=
  client_of
    [("/api/v2/cmdb/system/interface",
      ok (results_of [VDict unnamed_record; VDict unnamed_record]));
     ("/api/v2/cmdb/switch-controller/managed-switch?vdom=root",
      ok (results_of [VDict unnamed_record; VDict unnamed_record]));
     ("/api/v2/monitor/wifi/managed_ap/select?vdom=root",
      ok (results_of [VDict unnamed_record]));
     ("/api/v2/monitor/user/device/query?vdom=root",
      ok (results_of [VDict unnamed_record; VDict unnamed_record]))].

(** The sample appliance, also answering a request [build_topology]
    does not make. *)
Definition busier_client : FortiGateAPIClient :=
  {| host := host sample_client;
     port := port sample_client;
     appliance :=
       <["https://fw:443/api/v2/cmdb/firewall/policy"
         := ok (results_of [record [("policyid", VInt 1)]])]> (appliance sample_client) |}.

(** * Properties *)

(** ** Loops *)

Lemma extend_nil t : extend t [] = t.
Proof. destruct t; unfold extend; simpl. by rewrite !app_nil_r. Qed.

Lemma extend_app t es es' : extend (extend t es) es' = extend t (es ++ es').
Proof. unfold extend; simpl. by rewrite !fmap_app, !app_assoc. Qed.

Lemma mapM_as_dict items ds :
  mapM as_dict items = Some ds ↔ items = VDict <$> ds.
Proof.
  rewrite mapM_Some. split.
  - induction 1 as [|x d items ds Hx _ IH]; [done|].
    destruct x; try discriminate. simpl in Hx. injection Hx as ->. by rewrite IH.
  - intros ->. induction ds; constructor; auto.
Qed.

Lemma for_each_enumerated (body : Topology → nat * value → option Topology)
    (entry : nat * dict → option (dict * dict)) :
  (∀ t i x, body t (i, x) = d ← as_dict x; e ← entry (i, d); Some (extend t [e])) →
  ∀ items k t,
    for_each body (enumerate_from k items) t
    = ds ← mapM as_dict items; es ← mapM entry (enumerate_from k ds); Some (extend t es).
Proof.
  intros Hbody items. induction items as [|x items IH]; intros k t; simpl.
  - by rewrite extend_nil.
  - rewrite Hbody. destruct (as_dict x) as [d|]; simpl; [|done].
    destruct (entry (k, d)) as [e|] eqn:He; simpl.
    + rewrite IH. destruct (mapM as_dict items) as [ds|]; simpl; [|done].
      rewrite He; simpl.
      destruct (mapM entry (enumerate_from (S k) ds)) as [es|]; simpl; [|done].
      by rewrite extend_app.
    + destruct (mapM as_dict items) as [ds|]; simpl; [|done]. by rewrite He.
Qed.

Lemma for_each_filtered (body : Topology → value → option Topology)
    (keep : dict → bool) (entry : dict → dict * dict) :
  (∀ t x, body t x = d ← as_dict x; Some (if keep d then extend t [entry d] else t)) →
  ∀ items t,
    for_each body items t
    = ds ← mapM as_dict items; Some (extend t (entry <$> List.filter keep ds)).
Proof.
  intros Hbody items. induction items as [|x items IH]; intros t; simpl.
  - by rewrite extend_nil.
  - rewrite Hbody. destruct (as_dict x) as [d|]; simpl; [|done].
    rewrite IH. destruct (mapM as_dict items) as [ds|]; simpl; [|done].
    destruct (keep d); simpl; [|done]. by rewrite extend_app.
Qed.

Section Bodies.

Variable py_repr : value → string.

Lemma add_interface_entry t x :
  add_interface py_repr t x
  = d ← as_dict x;
    Some (if is_up d then extend t [interface_entry py_repr d] else t).
Proof.
  unfold add_interface. destruct (as_dict x) as [d|]; simpl; [|done].
  destruct (is_up d); [|done]. reflexivity.
Qed.

Lemma add_switch_entry t i x :
  add_switch py_repr t (i, x)
  = d ← as_dict x; e ← Some (switch_entry py_repr (i, d)); Some (extend t [e]).
Proof.
  unfold add_switch. destruct (as_dict x) as [d|]; simpl; [|done]. reflexivity.
Qed.

Lemma add_access_point_entry t i x :
  add_access_point py_repr t (i, x)
  = d ← as_dict x; e ← ap_entry py_repr (i, d); Some (extend t [e]).
Proof.
  unfold add_access_point, ap_entry. destruct (as_dict x) as [d|]; simpl; [|done].
  change (ap_device py_repr i d !! "id") with (Some (VStr (ap_id py_repr i d))). simpl.
  destruct (as_dict (get d "radio_1" (VDict ∅))); simpl; done.
Qed.

Lemma add_user_device_entry t i x :
  add_user_device t (i, x)
  = d ← as_dict x; e ← user_entry (i, d); Some (extend t [e]).
Proof.
  unfold add_user_device, user_entry. destruct (as_dict x) as [d|]; simpl; [|done].
  destruct (user_device_id i d) as [id|]; simpl; done.
Qed.

End Bodies.

Section Built.

Variable py_repr : value → string.

Lemma as_dict_Some x d : as_dict x = Some d → x = VDict d.
Proof. destruct x; simpl; congruence. Qed.

Lemma mapM_total {A B} (f : A → B) (l : list A) :
  mapM (λ x, Some (f x)) l = Some (f <$> l).
Proof. induction l as [|x l IH]; simpl; [done|]. by rewrite IH. Qed.

(** [build_topology] on a fresh builder returns exactly the topologies
    [built] describes. *)
Lemma build_topology_built c now t :
  build_topology py_repr (new_builder c) now = Some t → built py_repr c now t.
Proof.
  unfold build_topology, for_first. cbn [api_client topology new_builder].
  unfold empty_topology.
  intros H.
  destruct (first_result (get_system_info c)) as [fr|] eqn:Hfr; simpl in H; [|done].
  destruct (as_dict fr) as [first|] eqn:Hfirst; simpl in H; [|done].
  apply as_dict_Some in Hfirst as ->.
  destruct (py_iter (get_interfaces c)) as [items|] eqn:Hitems; simpl in H; [|done].
  rewrite (for_each_filtered _ _ _ (add_interface_entry py_repr)) in H.
  destruct (mapM as_dict items) as [ifaces|] eqn:Hifaces; simpl in H; [|done].
  apply mapM_as_dict in Hifaces as ->.
  destruct (first_items 10 (get_managed_switches c)) as [sitems|] eqn:Hsw; simpl in H; [|done].
  rewrite (for_each_enumerated _ (λ item, Some (switch_entry py_repr item))
             (add_switch_entry py_repr)) in H.
  destruct (mapM as_dict sitems) as [switches|] eqn:Hswitches; simpl in H; [|done].
  apply mapM_as_dict in Hswitches as ->.
  rewrite mapM_total in H. simpl in H.
  destruct (first_items 20 (get_wifi_ap_list c)) as [aitems|] eqn:Hap; simpl in H; [|done].
  rewrite (for_each_enumerated _ _ (add_access_point_entry py_repr)) in H.
  destruct (mapM as_dict aitems) as [aps|] eqn:Haps; simpl in H; [|done].
  apply mapM_as_dict in Haps as ->.
  destruct (mapM (ap_entry py_repr) (enumerate_from 0 aps)) as [ap_part|] eqn:Hap_part;
    simpl in H; [|done].
  destruct (first_items 50 (get_user_devices c)) as [uitems|] eqn:Hus; simpl in H; [|done].
  rewrite (for_each_enumerated _ _ add_user_device_entry) in H.
  destruct (mapM as_dict uitems) as [users|] eqn:Husers; simpl in H; [|done].
  apply mapM_as_dict in Husers as ->.
  destruct (mapM user_entry (enumerate_from 0 users)) as [user_part|] eqn:Huser_part;
    simpl in H; [|done].
  destruct (py_len (get_managed_switches c)) as [n_switch|] eqn:Hn1; simpl in H; [|done].
  destruct (py_len (get_wifi_ap_list c)) as [n_ap|] eqn:Hn2; simpl in H; [|done].
  destruct (py_len (get_user_devices c)) as [n_endpoint|] eqn:Hn3; simpl in H; [|done].
  unfold count_up in H. rewrite Hitems in H. simpl in H.
  rewrite (proj2 (mapM_as_dict _ _) eq_refl) in H. simpl in H.
  injection H as <-.
  pose proof (Built py_repr c now first ifaces switches aps users ap_part user_part
                n_switch n_ap n_endpoint Hfr Hitems Hsw Hap Hus Hap_part Huser_part
                Hn1 Hn2 Hn3) as B.
  cbv zeta in B. unfold set_metadata, extend, append_device. cbn [devices connections metadata].
  rewrite !fmap_app in B. rewrite <- !app_assoc. exact B.
Qed.

(** Conversely, every topology [built] describes is returned. *)
Lemma built_build_topology c now t :
  built py_repr c now t → build_topology py_repr (new_builder c) now = Some t.
Proof.
  intros [first ifaces switches aps users ap_part user_part n_switch n_ap n_endpoint
          Hfr Hitems Hsw Hap Hus Hap_part Huser_part Hn1 Hn2 Hn3 root entries].
  unfold build_topology, for_first, count_up. cbn [api_client topology new_builder].
  unfold empty_topology.
  rewrite Hfr. simpl. rewrite Hitems. simpl.
  rewrite (for_each_filtered _ _ _ (add_interface_entry py_repr)).
  rewrite (proj2 (mapM_as_dict _ _) eq_refl). simpl.
  rewrite Hsw. simpl.
  rewrite (for_each_enumerated _ (λ item, Some (switch_entry py_repr item))
             (add_switch_entry py_repr)).
  rewrite (proj2 (mapM_as_dict _ _) eq_refl). simpl. rewrite mapM_total. simpl.
  rewrite Hap. simpl.
  rewrite (for_each_enumerated _ _ (add_access_point_entry py_repr)).
  rewrite (proj2 (mapM_as_dict _ _) eq_refl). simpl. rewrite Hap_part. simpl.
  rewrite Hus. simpl.
  rewrite (for_each_enumerated _ _ add_user_device_entry).
  rewrite (proj2 (mapM_as_dict _ _) eq_refl). simpl. rewrite Huser_part. simpl.
  rewrite Hn1, Hn2, Hn3. simpl.
  unfold entries, root, set_metadata, final_metadata, empty_topology, extend, append_device.
  cbn [devices connections metadata app].
  by rewrite !fmap_app, <- !app_assoc.
Qed.

End Built.

(** ** Shape of what the loops append *)

Lemma mapM_Forall {A B} (f : A → option B) (P : B → Prop) l k :
  mapM f l = Some k → (∀ x y, f x = Some y → P y) → Forall P k.
Proof.
  rewrite mapM_Some. intros H HP. induction H; constructor; eauto.
Qed.

Lemma Forall_entries_types prefix ty link ty' es :
  Forall (entry_of prefix ty link) es →
  List.filter (has_type ty') es.*1 = if String.eqb ty ty' then es.*1 else [].
Proof.
  induction 1 as [|p es (key & _ & Hty & _) _ IH].
  - by destruct (String.eqb ty ty').
  - rewrite fmap_cons. cbn [List.filter]. rewrite IH.
    unfold has_type. rewrite Hty. simpl.
    by destruct (String.eqb ty ty').
Qed.

Lemma Forall_entries_targets prefix ty link p' (b : bool) es :
  (∀ key, String.prefix p' (prefix +:+ key) = b) →
  Forall (entry_of prefix ty link) es →
  List.filter (targets p') es.*2 = if b then es.*2 else [].
Proof.
  intros Hp. induction 1 as [|p es (key & _ & _ & _ & Htg & _) _ IH].
  - by destruct b.
  - rewrite fmap_cons. cbn [List.filter]. rewrite IH.
    unfold targets. rewrite Htg, Hp. by destruct b.
Qed.

Section Entries.

Variable py_repr : value → string.

Lemma interface_entry_of iface :
  entry_of "interface_" "interface" "network" (interface_entry py_repr iface).
Proof. eexists. repeat split; reflexivity. Qed.

Lemma switch_entry_of item :
  entry_of "switch_" "switch" "network" (switch_entry py_repr item).
Proof. eexists. repeat split; reflexivity. Qed.

Lemma ap_entry_of item p :
  ap_entry py_repr item = Some p → entry_of "ap_" "access_point" "wifi" p.
Proof.
  unfold ap_entry. destruct (as_dict _); simpl; [|done].
  intros [= <-]. eexists. repeat split; reflexivity.
Qed.

Lemma user_entry_of item p :
  user_entry item = Some p → entry_of "device_" "endpoint" "endpoint" p.
Proof.
  unfold user_entry, user_device_id. destruct (as_str _) as [mac|]; simpl; [|done].
  intros [= <-]. exists (replace ":" "_" mac). repeat split; reflexivity.
Qed.

Lemma user_entry_bandwidth item p :
  user_entry item = Some p → p.2 !! "bandwidth" = Some (VInt 100).
Proof.
  unfold user_entry. destruct (user_device_id _ _); simpl; [|done]. by intros [= <-].
Qed.

Lemma switch_entry_bandwidth item :
  (switch_entry py_repr item).2 !! "bandwidth" = Some (VInt 1000).
Proof. reflexivity. Qed.

Lemma interface_entries_of l :
  Forall (entry_of "interface_" "interface" "network") (interface_entry py_repr <$> l).
Proof. apply Forall_fmap, Forall_forall. intros; apply interface_entry_of. Qed.

Lemma switch_entries_of l :
  Forall (entry_of "switch_" "switch" "network") (switch_entry py_repr <$> l).
Proof. apply Forall_fmap, Forall_forall. intros; apply switch_entry_of. Qed.

Lemma ap_entries_of l k :
  mapM (ap_entry py_repr) l = Some k → Forall (entry_of "ap_" "access_point" "wifi") k.
Proof. intros H. eapply mapM_Forall; [exact H|]. apply ap_entry_of. Qed.

Lemma user_entries_of l k :
  mapM user_entry l = Some k → Forall (entry_of "device_" "endpoint" "endpoint") k.
Proof. intros H. eapply mapM_Forall; [exact H|]. apply user_entry_of. Qed.

(** The four parts of a built topology, each with its shape. *)
Lemma built_parts c now t :
  built py_repr c now t →
  ∃ (first : dict) (ifaces switches : list dict) (ap_part user_part : list (dict * dict)),
    let root := fortigate_device (host c) (get_system_status c) first in
    let I := interface_entry py_repr <$> List.filter is_up ifaces in
    let S := switch_entry py_repr <$> enumerate_from 0 switches in
    py_iter (get_interfaces c) = Some (VDict <$> ifaces) ∧
    first_items 10 (get_managed_switches c) = Some (VDict <$> switches) ∧
    devices t = root :: (I ++ S ++ ap_part ++ user_part).*1 ∧
    connections t = (I ++ S ++ ap_part ++ user_part).*2 ∧
    Forall (entry_of "interface_" "interface" "network") I ∧
    Forall (entry_of "switch_" "switch" "network") S ∧
    Forall (entry_of "ap_" "access_point" "wifi") ap_part ∧
    Forall (entry_of "device_" "endpoint" "endpoint") user_part ∧
    Forall (λ p, p.2 !! "bandwidth" = Some (VInt 1000)) S ∧
    Forall (λ p, p.2 !! "bandwidth" = Some (VInt 100)) user_part.
Proof.
  intros [first ifaces switches aps users ap_part user_part ? ? ?
          _ Hif Hsw _ _ Hap Hus _ _ _ root entries].
  exists first, ifaces, switches, ap_part, user_part. cbv zeta.
  repeat split; try done.
  - apply interface_entries_of.
  - apply switch_entries_of.
  - by eapply ap_entries_of.
  - by eapply user_entries_of.
  - apply Forall_fmap, Forall_forall. intros; apply switch_entry_bandwidth.
  - eapply mapM_Forall; [exact Hus|]. apply user_entry_bandwidth.
Qed.

End Entries.

(** ** Fetches that fail *)

Lemma get_results_failed c path : failed c path → get_results c path = VList [].
Proof.
  unfold failed, get_results. intros H.
  destruct (session_get c path) as [r|]; simpl; [|done].
  destruct (H r eq_refl) as [Hcode|Hjson].
  - by rewrite bool_decide_eq_false_2.
  - rewrite Hjson. by destruct (bool_decide _).
Qed.

Lemma get_system_info_failed c :
  failed c "/api/v2/cmdb/system/global?vdom=root" → get_system_info c = VDict ∅.
Proof.
  unfold failed, get_system_info. intros H.
  destruct (session_get c _) as [r|]; simpl; [|done].
  destruct (H r eq_refl) as [Hcode|Hjson].
  - by rewrite bool_decide_eq_false_2.
  - rewrite Hjson. by destruct (bool_decide _).
Qed.

(** [get_interfaces] goes by [raise_for_status], not by the code 200. *)
Lemma get_interfaces_failed c :
  (∀ r, session_get c "/api/v2/cmdb/system/interface" = Some r →
        400 ≤ status_code r < 600 ∨ json r = None) →
  get_interfaces c = VList [].
Proof.
  unfold get_interfaces, raise_for_status. intros H.
  destruct (session_get c _) as [r|]; simpl; [|done].
  destruct (H r eq_refl) as [Hcode|Hjson].
  - by rewrite bool_decide_eq_true_2.
  - rewrite Hjson. by destruct (bool_decide _).
Qed.

(** ** Returned topologies can be exported *)

Section Exportable.

Variable py_repr : value → string.

Lemma interface_entry_exportable iface : exportable_entry (interface_entry py_repr iface).
Proof. repeat split; eexists; reflexivity. Qed.

Lemma switch_entry_exportable item : exportable_entry (switch_entry py_repr item).
Proof. repeat split; eexists; reflexivity. Qed.

Lemma ap_entry_exportable item p : ap_entry py_repr item = Some p → exportable_entry p.
Proof.
  unfold ap_entry. destruct (as_dict _); simpl; [|done].
  intros [= <-]. repeat split; eexists; reflexivity.
Qed.

Lemma user_entry_exportable item p : user_entry item = Some p → exportable_entry p.
Proof.
  unfold user_entry. destruct (user_device_id _ _); simpl; [|done].
  intros [= <-]. repeat split; eexists; reflexivity.
Qed.

Lemma build_topology_exportable c now t :
  build_topology py_repr (new_builder c) now = Some t →
  Forall exportable_device (devices t) ∧ Forall exportable_connection (connections t).
Proof.
  intros H. apply build_topology_built in H.
  destruct H as [first ifaces switches aps users ap_part user_part n_switch n_ap n_endpoint
                 _ _ _ _ _ Hap_part Huser_part _ _ _ root entries].
  assert (Hes : Forall exportable_entry entries).
  { unfold entries. rewrite !Forall_app. repeat split.
    - apply Forall_fmap, Forall_forall. intros; apply interface_entry_exportable.
    - apply Forall_fmap, Forall_forall. intros; apply switch_entry_exportable.
    - eapply mapM_Forall; [exact Hap_part|]. apply ap_entry_exportable.
    - eapply mapM_Forall; [exact Huser_part|]. apply user_entry_exportable. }
  cbn [devices connections]. split.
  - constructor; [repeat split; eexists; reflexivity|].
    apply Forall_fmap. eapply Forall_impl; [exact Hes|]. by intros p [? _].
  - apply Forall_fmap. eapply Forall_impl; [exact Hes|]. by intros p [_ ?].
Qed.

Lemma build_topology_root c now t :
  build_topology py_repr (new_builder c) now = Some t →
  ∃ root, head (devices t) = Some root.
Proof.
  intros H. apply build_topology_built in H. destruct H. eexists. reflexivity.
Qed.

End Exportable.

Lemma substring_length n s : (String.length (substring 0 n s) ≤ n)%nat.
Proof.
  revert s. induction n as [|n IH]; intros [|a s]; simpl; try lia.
  specialize (IH s). lia.
Qed.

Lemma length_list_ascii_of_string s :
  length (list_ascii_of_string s) = String.length s.
Proof. induction s; simpl; congruence. Qed.

Lemma prefix_append p s : String.prefix p (p +:+ s) = true.
Proof.
  induction p as [|a p IH]; simpl.
  - by destruct s.
  - destruct (ascii_dec a a); [done|congruence].
Qed.

(** A slice [v[:n]] yields at most [n] items. *)
Lemma first_items_length n v items :
  first_items n v = Some items → (length items ≤ n)%nat.
Proof.
  unfold first_items. destruct v; simpl; try done; intros [= <-].
  - rewrite length_fmap, length_list_ascii_of_string. apply substring_length.
  - rewrite length_take. lia.
Qed.

Lemma length_enumerate_from {A} k (l : list A) :
  length (enumerate_from k l) = length l.
Proof. revert k. induction l; intros k; simpl; auto. Qed.

Lemma entry_of_linked prefix ty link p :
  entry_of prefix ty link p → linked p.1 p.2.
Proof. intros (key & Hid & _ & Hsrc & Htg & _). unfold linked. rewrite Hid. eauto. Qed.

Lemma Forall2_entries (P : dict → dict → Prop) (es : list (dict * dict)) :
  Forall (λ p, P p.1 p.2) es → Forall2 P es.*1 es.*2.
Proof. intros H. apply Forall2_fmap, Forall_Forall2_diag, H. Qed.

Section Graph.

Variable py_repr : value → string.

(** C1: in a topology returned by [build_topology] the first device is the
    root, with id "fortigate_main"; the connections pair off with the
    devices after it, each one leaving "fortigate_main" for the id of its
    device; hence the source and the target of every connection are ids
    of devices of the list. *)
Theorem connections_reference_devices c now t :
  build_topology py_repr (new_builder c) now = Some t →
  ∃ root rest,
    devices t = root :: rest ∧
    root !! "id" = Some (VStr "fortigate_main") ∧
    Forall2 linked rest (connections t) ∧
    Forall (λ conn,
              is_Some (conn !! "source") ∧ conn !! "source" ∈ device_ids t ∧
              is_Some (conn !! "target") ∧ conn !! "target" ∈ device_ids t)
           (connections t).
Proof.
  intros H. apply build_topology_built, built_parts in H.
  destruct H as (first & ifaces & switches & A & E & _ & _ & Hd & Hc & HI & HS & HA & HE & _).
  set (es := _ ++ _ ++ A ++ E) in *.
  assert (Hes : Forall (λ p, linked p.1 p.2) es).
  { unfold es. rewrite !Forall_app. repeat split;
      (eapply Forall_impl; [eassumption|]); intros p; apply entry_of_linked. }
  eexists _, _. split; [exact Hd|]. split; [reflexivity|].
  rewrite Hc. split; [by apply Forall2_entries|].
  unfold device_ids. rewrite Hd, fmap_cons.
  apply Forall_fmap, Forall_forall. intros p Hp.
  destruct (proj1 (Forall_forall _ _) Hes p Hp) as (Hsrc & Hid & Htg).
  simpl. rewrite Hsrc, Htg. repeat split; eauto.
  - apply elem_of_cons. by left.
  - apply elem_of_cons. right.
    apply (list_elem_of_fmap_2 (λ d : dict, d !! "id")), (list_elem_of_fmap_2 fst), Hp.
Qed.

(** C10: a returned topology has one connection less than it has devices:
    the root comes without a connection, every other device with exactly
    one. *)
Theorem connections_one_less_than_devices c now t :
  build_topology py_repr (new_builder c) now = Some t →
  length (devices t) = S (length (connections t)) ∧
  length (connections t) = (length (devices t) - 1)%nat.
Proof.
  intros H. apply build_topology_built, built_parts in H.
  destruct H as (first & ifaces & switches & A & E & _ & _ & Hd & Hc & _).
  rewrite Hd, Hc. simpl. rewrite !length_fmap. lia.
Qed.

(** C9: the connection appended with a device of type "switch" has
    bandwidth 1000, and a connection of type "endpoint" has bandwidth
    100, whatever the fetched records hold. *)
Theorem switch_and_endpoint_bandwidth c now t :
  build_topology py_repr (new_builder c) now = Some t →
  Forall2 (λ dev conn,
             (has_type "switch" dev = true → conn !! "bandwidth" = Some (VInt 1000)) ∧
             (conn !! "type" = Some (VStr "endpoint") → conn !! "bandwidth" = Some (VInt 100)))
          (tail (devices t)) (connections t) ∧
  Forall (λ conn, conn !! "type" = Some (VStr "endpoint") →
                  conn !! "bandwidth" = Some (VInt 100))
         (connections t).
Proof.
  intros H. apply build_topology_built, built_parts in H.
  destruct H as (first & ifaces & switches & A & E & _ & _ & Hd & Hc & HI & HS & HA & HE & HS' & HE').
  set (es := _ ++ _ ++ A ++ E) in *.
  assert (Hes : Forall (λ p : dict * dict,
             (has_type "switch" p.1 = true → p.2 !! "bandwidth" = Some (VInt 1000)) ∧
             (p.2 !! "type" = Some (VStr "endpoint") → p.2 !! "bandwidth" = Some (VInt 100))) es).
  { unfold es. rewrite !Forall_app. repeat split.
    - eapply Forall_impl; [exact HI|]. intros p (key & _ & Hty & _ & _ & Hl).
      unfold has_type. rewrite Hty, Hl. split; [done|congruence].
    - eapply Forall_impl; [apply Forall_and; split; [exact HS|exact HS']|].
      intros p [(key & _ & _ & _ & _ & Hl) Hbw]. rewrite Hl. split; [done|congruence].
    - eapply Forall_impl; [exact HA|]. intros p (key & _ & Hty & _ & _ & Hl).
      unfold has_type. rewrite Hty, Hl. split; [done|congruence].
    - eapply Forall_impl; [apply Forall_and; split; [exact HE|exact HE']|].
      intros p [(key & _ & Hty & _) Hbw]. unfold has_type. rewrite Hty. split; done. }
  rewrite Hd, Hc. simpl. split; [by apply Forall2_entries|].
  apply Forall_fmap. eapply Forall_impl; [exact Hes|]. by intros p [_ ?].
Qed.

(** C2: at most 10 devices of type "switch" are returned, while
    [device_counts] holds the lengths of the fetched switch, access-point
    and endpoint results as they came (before the slices) and, for
    "interface", the number of entries whose status is "up". *)
Theorem switch_cap_and_device_counts c now t :
  build_topology py_repr (new_builder c) now = Some t →
  (length (List.filter (has_type "switch") (devices t)) ≤ 10)%nat ∧
  ∃ (counts : dict) (n_switch n_ap n_endpoint : nat) (ifaces : list dict),
    metadata t !! "device_counts" = Some (VDict counts) ∧
    py_len (get_managed_switches c) = Some n_switch ∧
    counts !! "switch" = Some (VInt (Z.of_nat n_switch)) ∧
    py_len (get_wifi_ap_list c) = Some n_ap ∧
    counts !! "access_point" = Some (VInt (Z.of_nat n_ap)) ∧
    py_len (get_user_devices c) = Some n_endpoint ∧
    counts !! "endpoint" = Some (VInt (Z.of_nat n_endpoint)) ∧
    py_iter (get_interfaces c) = Some (VDict <$> ifaces) ∧
    counts !! "interface" = Some (VInt (Z.of_nat (length (List.filter is_up ifaces)))).
Proof.
  intros H. apply build_topology_built in H. split.
  - apply built_parts in H.
    destruct H as (first & ifaces & switches & A & E & _ & Hsw & Hd & _ & HI & HS & HA & HE & _).
    rewrite Hd. cbn [List.filter].
    replace (has_type "switch" (fortigate_device _ _ _)) with false by reflexivity.
    rewrite !fmap_app, !List.filter_app.
    rewrite (Forall_entries_types _ _ _ _ _ HI), (Forall_entries_types _ _ _ _ _ HS),
      (Forall_entries_types _ _ _ _ _ HA), (Forall_entries_types _ _ _ _ _ HE).
    simpl. rewrite app_nil_r, !length_fmap, length_enumerate_from.
    apply first_items_length in Hsw. by rewrite length_fmap in Hsw.
  - destruct H as [first ifaces switches aps users ap_part user_part n_switch n_ap n_endpoint
                   _ Hif _ _ _ _ _ Hn1 Hn2 Hn3 root entries].
    eexists _, n_switch, n_ap, n_endpoint, ifaces. cbn [metadata].
    split; [reflexivity|]. repeat split; done.
Qed.

(** C6: an interface entry yields a device (and its connection) exactly
    when its "status" is the string "up": the devices of type
    "interface" are those of the up entries, in order, and so are the
    connections to "interface_" ids; "UP" and "Up" are not "up". *)
Theorem interface_devices_iff_status_up c now t :
  build_topology py_repr (new_builder c) now = Some t →
  ∃ ifaces : list dict,
    py_iter (get_interfaces c) = Some (VDict <$> ifaces) ∧
    List.filter (has_type "interface") (devices t)
    = interface_device py_repr <$> List.filter is_up ifaces ∧
    List.filter (targets "interface_") (connections t)
    = (λ iface, connection (VStr (interface_id py_repr iface)) "network"
                  (get iface "speed" (VInt 0))) <$> List.filter is_up ifaces ∧
    (∀ iface : dict, is_up iface = true ↔ iface !! "status" = Some (VStr "up")) ∧
    (∀ iface : dict, iface !! "status" = Some (VStr "UP") ∨
                     iface !! "status" = Some (VStr "Up") → is_up iface = false).
Proof.
  intros H. apply build_topology_built, built_parts in H.
  destruct H as (first & ifaces & switches & A & E & Hif & _ & Hd & Hc & HI & HS & HA & HE & _).
  exists ifaces. split; [exact Hif|]. split; [|split; [|split]].
  - rewrite Hd. cbn [List.filter].
    replace (has_type "interface" (fortigate_device _ _ _)) with false by reflexivity.
    rewrite !fmap_app, !List.filter_app.
    rewrite (Forall_entries_types _ _ _ _ _ HI), (Forall_entries_types _ _ _ _ _ HS),
      (Forall_entries_types _ _ _ _ _ HA), (Forall_entries_types _ _ _ _ _ HE).
    simpl. rewrite app_nil_r, <- list_fmap_compose. done.
  - rewrite Hc, !fmap_app, !List.filter_app.
    rewrite (Forall_entries_targets "interface_" _ _ _ true _ (prefix_append _) HI),
      (Forall_entries_targets "switch_" _ _ "interface_" false _ (λ _, eq_refl) HS),
      (Forall_entries_targets "ap_" _ _ "interface_" false _ (λ _, eq_refl) HA),
      (Forall_entries_targets "device_" _ _ "interface_" false _ (λ _, eq_refl) HE).
    simpl. rewrite app_nil_r, <- list_fmap_compose. done.
  - intros iface. unfold is_up, eq_str.
    destruct (iface !! "status") as [[]|]; try (split; congruence).
    rewrite String.eqb_eq. split; congruence.
  - intros iface [H | H]; unfold is_up; rewrite H; reflexivity.
Qed.

End Graph.

Section Fetches.

Variable py_repr : value → string.

(** C3: when the system-info fetch yields the empty dictionary and the
    four list fetches yield empty lists, [build_topology] returns a
    topology whose only device is the root and which has no connection. *)
Theorem only_root_when_fetches_empty c now :
  get_system_info c = VDict ∅ →
  get_interfaces c = VList [] →
  get_managed_switches c = VList [] →
  get_wifi_ap_list c = VList [] →
  get_user_devices c = VList [] →
  ∃ t, build_topology py_repr (new_builder c) now = Some t ∧
       devices t = [fortigate_device (host c) (get_system_status c) ∅] ∧
       connections t = [].
Proof.
  intros Hinfo Hif Hsw Hap Hus. eexists. split.
  - unfold build_topology, for_first, count_up. cbn [api_client topology new_builder].
    unfold empty_topology.
    rewrite Hinfo, Hif, Hsw, Hap, Hus. reflexivity.
  - split; reflexivity.
Qed.

(** What [replace] does, character by character. *)
Lemma replace_spec old new s :
  list_ascii_of_string (replace old new s)
  = (λ ch, if Ascii.eqb ch old then new else ch) <$> list_ascii_of_string s.
Proof. induction s as [|a s IH]; simpl; [done|]. by rewrite IH. Qed.

Lemma user_entry_id i d p mac :
  user_entry (i, d) = Some p → d !! "mac" = Some (VStr mac) →
  p.1 !! "id" = Some (VStr ("device_" +:+ replace ":" "_" mac)).
Proof.
  unfold user_entry, user_device_id, get. cbn [fst snd]. intros H Hmac. rewrite Hmac in H.
  simpl in H. by injection H as <-.
Qed.

(** C7: the id of the device built for an endpoint record whose "mac" is
    the string [mac] is "device_" followed by [mac] with every ':'
    turned into '_'; for "aa:bb:cc:dd:ee:ff" it is
    "device_aa_bb_cc_dd_ee_ff". *)
Theorem endpoint_id_from_mac c now t :
  build_topology py_repr (new_builder c) now = Some t →
  ∃ users : list dict,
    first_items 50 (get_user_devices c) = Some (VDict <$> users) ∧
    Forall2 (λ (item : nat * dict) (dev : dict),
               ∀ mac, item.2 !! "mac" = Some (VStr mac) →
                 dev !! "id" = Some (VStr ("device_" +:+ replace ":" "_" mac)) ∧
                 list_ascii_of_string (replace ":" "_" mac)
                 = (λ ch, if Ascii.eqb ch ":" then "_" else ch)%char
                     <$> list_ascii_of_string mac)
            (enumerate_from 0 users)
            (List.filter (has_type "endpoint") (devices t)) ∧
    "device_" +:+ replace ":" "_" "aa:bb:cc:dd:ee:ff" = "device_aa_bb_cc_dd_ee_ff".
Proof.
  intros H. apply build_topology_built in H.
  destruct H as [first ifaces switches aps users ap_part user_part n_switch n_ap n_endpoint
                 _ _ _ _ Hus Hap_part Huser_part _ _ _ root entries].
  exists users. split; [exact Hus|]. split; [|reflexivity].
  cbn [devices List.filter].
  replace (has_type "endpoint" root) with false by reflexivity.
  unfold entries. rewrite !fmap_app, !List.filter_app.
  rewrite (Forall_entries_types "interface_" "interface" "network"),
    (Forall_entries_types "switch_" "switch" "network"),
    (Forall_entries_types "ap_" "access_point" "wifi"),
    (Forall_entries_types "device_" "endpoint" "endpoint"); simpl.
  - apply Forall2_fmap_r. apply mapM_Some in Huser_part.
    eapply Forall2_impl; [exact Huser_part|]. intros [i d] p Hp mac Hmac.
    split; [by eapply user_entry_id|apply replace_spec].
  - by eapply user_entries_of.
  - by eapply ap_entries_of.
  - apply switch_entries_of.
  - apply interface_entries_of.
Qed.

End Fetches.

(** ** The export *)

Lemma mapM_Forall2 {A B} (f : A → option B) (P : A → Prop) (R : A → B → Prop) l :
  (∀ x, P x → ∃ y, f x = Some y ∧ R x y) →
  Forall P l → ∃ k, mapM f l = Some k ∧ Forall2 R l k.
Proof.
  intros Hf. induction 1 as [|x l Hx _ (k & Hk & HR)]; simpl.
  - by exists [].
  - destruct (Hf x Hx) as (y & -> & Hy). rewrite Hk. simpl. eauto.
Qed.

Lemma babylon_model_of d :
  exportable_device d → ∃ m, babylon_model d = Some m ∧ model_of d m.
Proof.
  intros ([id Hid] & [name Hname] & [ty Hty] & [pos Hpos]).
  unfold babylon_model. rewrite Hid, Hname, Hty, Hpos. simpl.
  eexists. split; [reflexivity|].
  unfold model_of. rewrite Hid, Hname, Hty, Hpos. repeat split; reflexivity.
Qed.

Lemma babylon_connection_of conn :
  exportable_connection conn →
  ∃ e, babylon_connection conn = Some e ∧ connection_of conn e.
Proof.
  intros ([s Hs] & [g Hg] & [ty Hty]).
  unfold babylon_connection. rewrite Hs, Hg, Hty. simpl.
  eexists. split; [reflexivity|].
  unfold connection_of. rewrite Hs, Hg, Hty. repeat split; try reflexivity.
  - intros [bw Hbw]. unfold get. rewrite Hbw. reflexivity.
  - intros key [v Hv]. unfold mkdict in Hv. simpl in Hv.
    rewrite !lookup_insert_Some, lookup_empty in Hv.
    rewrite !elem_of_cons.
    repeat (destruct Hv as [[<- _]|[_ Hv]]; [auto 6|]). done.
Qed.


(** The export returns on exportable topologies only. *)
Lemma export_returns_exportable self b :
  export_to_babylon_format self = Some b →
  Forall exportable_device (devices (topology self)) ∧
  Forall exportable_connection (connections (topology self)).
Proof.
  unfold export_to_babylon_format. intros H.
  destruct (mapM babylon_model _) as [ms|] eqn:Hms; simpl in H; [|done].
  destruct (mapM babylon_connection _) as [cs|] eqn:Hcs; simpl in H; [|done].
  apply mapM_Some in Hms. apply mapM_Some in Hcs. split.
  - clear -Hms. induction Hms as [|d m ds ms Hd _ IH]; constructor; [|done].
    unfold babylon_model in Hd. unfold exportable_device.
    destruct (d !! "id"), (d !! "name"), (d !! "type"), (d !! "position"); naive_solver.
  - clear -Hcs. induction Hcs as [|d e ds es Hd _ IH]; constructor; [|done].
    unfold babylon_connection in Hd. unfold exportable_connection.
    destruct (d !! "source"), (d !! "target"), (d !! "type"); naive_solver.
Qed.

(** ** The root device *)

Lemma get_system_status_ok c r (data results : dict) :
  session_get c "/api/v2/monitor/system/status?vdom=root" = Some r →
  status_code r = 200 →
  json r = Some (VDict data) →
  get data "results" (VDict ∅) = VDict results →
  get_system_status c
  = <["status" := get data "status" (VStr "unknown")]>
      (<["hostname" := get results "hostname" (get data "hostname" (VStr "FortiGate"))]>
      (<["version" := get data "version" (get results "version" (VStr "Unknown"))]>
      (<["serial" := get data "serial" (get results "serial" (VStr "Unknown"))]>
       results))).
Proof.
  intros Hr Hcode Hjson Hres. unfold get_system_status. rewrite Hr. simpl.
  rewrite bool_decide_eq_true_2 by done. rewrite Hjson. simpl.
  unfold status_data. simpl. rewrite Hres. reflexivity.
Qed.

(** [get_system_status] either got a status answer or returns [{}]. *)
Lemma get_system_status_cases c :
  (∃ data results, status_answer c data results) ∨
  ((∀ data results, ¬ status_answer c data results) ∧ get_system_status c = ∅).
Proof.
  unfold status_answer, get_system_status.
  destruct (session_get c _) as [r|]; simpl;
    [|right; split; [intros ? ? (? & ? & _); discriminate|done]].
  case_bool_decide as Hcode; simpl;
    [|right; split; [intros ? ? (? & [= <-] & ? & _); done|done]].
  destruct (json r) as [data|] eqn:Hjson; simpl;
    [|right; split; [intros ? ? (? & [= <-] & _ & ? & _); congruence|done]].
  destruct data as [| | | | | |data]; simpl;
    try (right; split; [intros ? ? (? & [= <-] & _ & ? & _); congruence|done]).
  unfold status_data; simpl.
  destruct (get data "results" (VDict ∅)) as [| | | | | |results] eqn:Hres; simpl;
    try (right; split;
         [intros ? ? (? & [= <-] & _ & Hjson' & Hres');
          rewrite Hjson in Hjson'; injection Hjson' as <-; congruence
         |done]).
  left. exists data, results, r. done.
Qed.

Section Root.

Variable py_repr : value → string.

(** C4, as the code has it.  When the status request is answered 200
    with a JSON object whose "results" is an object (or absent): serial
    and version follow the three-tier chain (top-level field, nested
    "results" field, "Unknown"); the name prefers the nested "hostname",
    then the top-level one, then "FortiGate"; the status is the top-level
    field or "unknown"; the model is the nested "model", else the
    "platform_str" of the first system-info result, else "Unknown".  In
    every other case (the request raises, another status, a body that is
    not a JSON object, "results" not an object) no field of the answer
    is used: the root has the literals "FortiGate", "Unknown", "Unknown"
    and "unknown", and the model by "platform_str" or "Unknown".  One of
    the two cases always applies. *)
Theorem root_device_fields c now t (root : dict) :
  build_topology py_repr (new_builder c) now = Some t →
  head (devices t) = Some root →
  ∃ first : dict,
    first_result (get_system_info c) = Some (VDict first) ∧
    (∀ data results : dict,
       status_answer c data results →
       root !! "serial" = Some (three_tier data results "serial" "Unknown") ∧
       root !! "version" = Some (three_tier data results "version" "Unknown") ∧
       root !! "name"
       = Some (get results "hostname" (get data "hostname" (VStr "FortiGate"))) ∧
       (∃ md : dict, root !! "metadata" = Some (VDict md) ∧
                     md !! "status" = Some (get data "status" (VStr "unknown"))) ∧
       root !! "model"
       = Some (get results "model" (get first "platform_str" (VStr "Unknown")))) ∧
    ((∀ data results : dict, ¬ status_answer c data results) →
       root !! "serial" = Some (VStr "Unknown") ∧
       root !! "version" = Some (VStr "Unknown") ∧
       root !! "name" = Some (VStr "FortiGate") ∧
       (∃ md : dict, root !! "metadata" = Some (VDict md) ∧
                     md !! "status" = Some (VStr "unknown")) ∧
       root !! "model" = Some (get first "platform_str" (VStr "Unknown"))) ∧
    ((∃ data results : dict, status_answer c data results) ∨
     (∀ data results : dict, ¬ status_answer c data results)).
Proof.
  intros H Hroot.
  apply build_topology_built in H.
  destruct H as [first ifaces switches aps users ap_part user_part n_switch n_ap n_endpoint
                 Hfirst _ _ _ _ _ _ _ _ _ root' entries].
  simpl in Hroot. injection Hroot as <-. unfold root'.
  exists first. split; [exact Hfirst|]. split; [|split].
  - intros data results (r & Hr & Hcode & Hjson & Hres).
    rewrite (get_system_status_ok c r data results Hr Hcode Hjson Hres).
    set (st := <["status" := _]> _).
    assert (Hserial : st !! "serial"
              = Some (get data "serial" (get results "serial" (VStr "Unknown")))).
    { unfold st. rewrite !lookup_insert_ne by done. apply lookup_insert_eq. }
    assert (Hversion : st !! "version"
              = Some (get data "version" (get results "version" (VStr "Unknown")))).
    { unfold st. rewrite !lookup_insert_ne by done. apply lookup_insert_eq. }
    assert (Hname : st !! "hostname"
              = Some (get results "hostname" (get data "hostname" (VStr "FortiGate")))).
    { unfold st. rewrite !lookup_insert_ne by done. apply lookup_insert_eq. }
    assert (Hstatus : st !! "status" = Some (get data "status" (VStr "unknown"))).
    { unfold st. apply lookup_insert_eq. }
    assert (Hmodel : st !! "model" = results !! "model").
    { unfold st. by rewrite !lookup_insert_ne by done. }
    unfold three_tier. repeat split.
    + change (fortigate_device (host c) st first !! "serial")
        with (Some (get st "serial" (VStr "Unknown"))).
      unfold get at 1. by rewrite Hserial.
    + change (fortigate_device (host c) st first !! "version")
        with (Some (get st "version" (VStr "Unknown"))).
      unfold get at 1. by rewrite Hversion.
    + change (fortigate_device (host c) st first !! "name")
        with (Some (get st "hostname" (VStr "FortiGate"))).
      unfold get at 1. by rewrite Hname.
    + eexists. split; [reflexivity|].
      change (Some (get st "status" (VStr "unknown"))
              = Some (get data "status" (VStr "unknown"))).
      unfold get at 1. by rewrite Hstatus.
    + change (fortigate_device (host c) st first !! "model")
        with (Some (get st "model" (get first "platform_str" (VStr "Unknown")))).
      unfold get at 1 3. by rewrite Hmodel.
  - intros Hnone.
    destruct (get_system_status_cases c) as [(data & results & Hans)|[_ ->]];
      [by destruct (Hnone data results)|].
    repeat split.
    + eexists. split; reflexivity.
  - destruct (get_system_status_cases c) as [?|[? _]]; [by left|by right].
Qed.

End Root.

(** ** Device ids *)

Lemma mapM_fmap_eq {A B C} (f : A → option B) (g : B → C) (h : A → C)
    (l : list A) (k : list B) :
  mapM f l = Some k → (∀ x y, f x = Some y → g y = h x) → g <$> k = h <$> l.
Proof.
  rewrite mapM_Some. intros H Hgh.
  induction H as [|x y l k Hxy _ IH]; [done|].
  by rewrite !fmap_cons, (Hgh x y Hxy), IH.
Qed.

Lemma mapM_through {A B C} (f : A → option B) (f' : A → option C) (g : B → C)
    (l : list A) (k : list B) :
  (∀ x y, f x = Some y → f' x = Some (g y)) →
  mapM f l = Some k → mapM f' l = Some (g <$> k).
Proof.
  intros Hf. rewrite !mapM_Some. intros H.
  induction H as [|x y l k Hxy _ IH]; [constructor|].
  rewrite fmap_cons. constructor; auto.
Qed.

(** Ids of different categories differ in their first character, and
    none of them is the root id. *)
Lemma NoDup_categories (a b c d : list string) :
  Forall (starts "interface_") a → Forall (starts "switch_") b →
  Forall (starts "ap_") c → Forall (starts "device_") d →
  NoDup ("fortigate_main" :: a ++ b ++ c ++ d)
  ↔ NoDup a ∧ NoDup b ∧ NoDup c ∧ NoDup d.
Proof.
  rewrite !Forall_forall. intros Ha Hb Hc Hd.
  rewrite NoDup_cons, !NoDup_app. split; [tauto|].
  intros (Na & Nb & Nc & Nd).
  assert (clash : ∀ (p q : string) x (l l' : list string),
             (∀ k k', p +:+ k ≠ q +:+ k') →
             (∀ y, y ∈ l → starts p y) → (∀ y, y ∈ l' → starts q y) →
             x ∈ l → x ∈ l' → False).
  { intros p q x l l' Hpq Hl Hl' Hx Hx'.
    destruct (Hl x Hx) as [k ->]. destruct (Hl' _ Hx') as [k' E]. by apply (Hpq k k'). }
  repeat split; try done.
  - rewrite !elem_of_app. intros [H|[H|[H|H]]].
    + destruct (Ha _ H) as [k E]. discriminate E.
    + destruct (Hb _ H) as [k E]. discriminate E.
    + destruct (Hc _ H) as [k E]. discriminate E.
    + destruct (Hd _ H) as [k E]. discriminate E.
  - intros x Hx. rewrite !elem_of_app. intros [H|[H|H]].
    + by apply (clash "interface_" "switch_" x a b).
    + by apply (clash "interface_" "ap_" x a c).
    + by apply (clash "interface_" "device_" x a d).
  - intros x Hx. rewrite !elem_of_app. intros [H|H].
    + by apply (clash "switch_" "ap_" x b c).
    + by apply (clash "switch_" "device_" x b d).
  - intros x Hx H. by apply (clash "ap_" "device_" x c d).
Qed.

#[local] Instance Some_VStr_inj : Inj (=) (=) (λ s, Some (VStr s)).
Proof. intros s s' [= ->]. done. Qed.

Section Ids.

Variable py_repr : value → string.

Lemma user_entry_id_text item p :
  user_entry item = Some p →
  user_device_id item.1 item.2 = Some (id_text p.1).
Proof.
  unfold user_entry. destruct (user_device_id _ _) as [id|]; simpl; [|done].
  by intros [= <-].
Qed.

Lemma ap_entry_id_text item p :
  ap_entry py_repr item = Some p → id_text p.1 = ap_id py_repr item.1 item.2.
Proof.
  unfold ap_entry. destruct (as_dict _); simpl; [|done]. by intros [= <-].
Qed.

Lemma entry_of_id_text prefix ty link p :
  entry_of prefix ty link p →
  p.1 !! "id" = Some (VStr (id_text p.1)) ∧ starts prefix (id_text p.1).
Proof.
  intros (key & Hid & _). unfold id_text, starts. rewrite Hid. eauto.
Qed.

(** C5, as the code has it: ids of different kinds never collide (the
    root id, "interface_", "switch_", "ap_" and "device_" ids differ),
    so the ids of a returned topology are pairwise distinct exactly when,
    within each kind, the ids built from the fetched names and MACs are;
    nothing removes a repeated name. *)
Theorem device_ids_unique_iff c now t :
  build_topology py_repr (new_builder c) now = Some t →
  ∃ (ifaces switches aps users : list dict) (user_ids : list string),
    py_iter (get_interfaces c) = Some (VDict <$> ifaces) ∧
    first_items 10 (get_managed_switches c) = Some (VDict <$> switches) ∧
    first_items 20 (get_wifi_ap_list c) = Some (VDict <$> aps) ∧
    first_items 50 (get_user_devices c) = Some (VDict <$> users) ∧
    mapM (λ item, user_device_id item.1 item.2) (enumerate_from 0 users) = Some user_ids ∧
    (NoDup (device_ids t)
     ↔ NoDup (interface_id py_repr <$> List.filter is_up ifaces) ∧
       NoDup ((λ item, switch_id py_repr item.1 item.2) <$> enumerate_from 0 switches) ∧
       NoDup ((λ item, ap_id py_repr item.1 item.2) <$> enumerate_from 0 aps) ∧
       NoDup user_ids).
Proof.
  intros H. apply build_topology_built in H.
  destruct H as [first ifaces switches aps users ap_part user_part n_switch n_ap n_endpoint
                 _ Hif Hsw Hap Hus Hap_part Huser_part _ _ _ root entries].
  pose proof (interface_entries_of py_repr (List.filter is_up ifaces)) as HI.
  pose proof (switch_entries_of py_repr (enumerate_from 0 switches)) as HS.
  pose proof (ap_entries_of py_repr _ _ Hap_part) as HA.
  pose proof (user_entries_of _ _ Huser_part) as HE.
  exists ifaces, switches, aps, users, (id_text <$> user_part.*1).
  repeat (split; [done|]). split.
  { rewrite <- list_fmap_compose.
    apply (mapM_through user_entry); [|done]. apply user_entry_id_text. }
  set (I := interface_entry py_repr <$> _) in *.
  set (S := switch_entry py_repr <$> _) in *.
  assert (Hids : device_ids {| devices := root :: entries.*1; connections := entries.*2;
                               metadata := final_metadata root now n_switch n_ap n_endpoint
                                             (length (List.filter is_up ifaces)) |}
                 = (λ s, Some (VStr s))
                     <$> "fortigate_main" :: (id_text <$> I.*1) ++ (id_text <$> S.*1)
                           ++ (id_text <$> ap_part.*1) ++ (id_text <$> user_part.*1)).
  { unfold device_ids. cbn [devices]. rewrite !fmap_cons. f_equal.
    rewrite <- !fmap_app, <- !list_fmap_compose.
    apply Forall_fmap_ext. unfold entries. rewrite !Forall_app.
    repeat split; (eapply Forall_impl; [eassumption|]);
      intros p Hp; simpl; by apply entry_of_id_text in Hp as [-> _]. }
  rewrite Hids, (NoDup_fmap (λ s, Some (VStr s))).
  assert (starting : ∀ prefix ty link es,
            Forall (entry_of prefix ty link) es → Forall (starts prefix) (id_text <$> es.*1)).
  { intros prefix ty link es Hes. rewrite <- list_fmap_compose. apply Forall_fmap.
    eapply Forall_impl; [exact Hes|]. intros p Hp. by apply entry_of_id_text in Hp as [_ ?]. }
  rewrite (NoDup_categories _ _ _ _ (starting _ _ _ _ HI) (starting _ _ _ _ HS)
             (starting _ _ _ _ HA) (starting _ _ _ _ HE)).
  replace (id_text <$> I.*1) with (interface_id py_repr <$> List.filter is_up ifaces)
    by (unfold I; by rewrite <- !list_fmap_compose).
  replace (id_text <$> S.*1)
    with ((λ item, switch_id py_repr item.1 item.2) <$> enumerate_from 0 switches)
    by (unfold S; by rewrite <- !list_fmap_compose).
  replace (id_text <$> ap_part.*1)
    with ((λ item, ap_id py_repr item.1 item.2) <$> enumerate_from 0 aps); [done|].
  symmetry. rewrite <- list_fmap_compose.
  apply (mapM_fmap_eq (ap_entry py_repr)); [done|]. apply ap_entry_id_text.
Qed.

End Ids.

(** ** The sample appliances *)

Lemma returns_Some {A} (o : option A) : returns o = true → ∃ x, o = Some x.
Proof. destruct o; [eauto|discriminate]. Qed.

(** Runs the builder of a goal [∃ t, build_topology ... = Some t ∧ _]. *)
Ltac run_builder t E :=
  match goal with
  | |- ∃ _, ?b = Some _ ∧ _ =>
      destruct (returns_Some b) as [t E]; [vm_compute; reflexivity|];
      exists t; split; [exact E|]
  end.

(** A builder keeps its topology between calls: a second
    [build_topology] on the same builder appends to the first result. *)
Example second_call_appends :
  (t ← build_topology sample_repr (new_builder status_only_client) sample_now;
   t' ← build_topology sample_repr
          {| api_client := status_only_client; topology := t |} sample_now;
   Some (length (devices t), length (devices t')))
  = Some (1%nat, 2%nat).
Proof. vm_compute. reflexivity. Qed.

(** The specification's scenario: of "wan1" (up) and "wan2" (down) only
    "interface_wan1" appears; of eleven switches ten do. *)
Example sample_ids :
  device_ids <$> build_topology sample_repr (new_builder sample_client) sample_now
  = Some ((λ s, Some (VStr s)) <$>
          ["fortigate_main"; "interface_wan1";
           "switch_sw0"; "switch_sw1"; "switch_sw2"; "switch_sw3"; "switch_sw4";
           "switch_sw5"; "switch_sw6"; "switch_sw7"; "switch_sw8"; "switch_sw9";
           "ap_ap-lobby"; "device_aa_bb_cc_dd_ee_ff"]).
Proof. vm_compute. reflexivity. Qed.

Example sample_switch_count :
  (t ← build_topology sample_repr (new_builder sample_client) sample_now;
   counts ← metadata t !! "device_counts";
   counts ← as_dict counts;
   counts !! "switch")
  = Some (VInt 11).
Proof. vm_compute. reflexivity. Qed.

Lemma connections_reference_devices_sample :
  ∃ t, build_topology sample_repr (new_builder sample_client) sample_now = Some t ∧
  ∃ root rest,
    devices t = root :: rest ∧
    root !! "id" = Some (VStr "fortigate_main") ∧
    Forall2 linked rest (connections t) ∧
    Forall (λ conn,
              is_Some (conn !! "source") ∧ conn !! "source" ∈ device_ids t ∧
              is_Some (conn !! "target") ∧ conn !! "target" ∈ device_ids t)
           (connections t).
Proof.
  run_builder t E.
  exact (connections_reference_devices sample_repr sample_client sample_now t E).
Defined.

Lemma switch_cap_and_device_counts_sample :
  ∃ t, build_topology sample_repr (new_builder sample_client) sample_now = Some t ∧
  (length (List.filter (has_type "switch") (devices t)) ≤ 10)%nat ∧
  ∃ (counts : dict) (n_switch n_ap n_endpoint : nat) (ifaces : list dict),
    metadata t !! "device_counts" = Some (VDict counts) ∧
    py_len (get_managed_switches sample_client) = Some n_switch ∧
    counts !! "switch" = Some (VInt (Z.of_nat n_switch)) ∧
    py_len (get_wifi_ap_list sample_client) = Some n_ap ∧
    counts !! "access_point" = Some (VInt (Z.of_nat n_ap)) ∧
    py_len (get_user_devices sample_client) = Some n_endpoint ∧
    counts !! "endpoint" = Some (VInt (Z.of_nat n_endpoint)) ∧
    py_iter (get_interfaces sample_client) = Some (VDict <$> ifaces) ∧
    counts !! "interface" = Some (VInt (Z.of_nat (length (List.filter is_up ifaces)))).
Proof.
  run_builder t E.
  exact (switch_cap_and_device_counts sample_repr sample_client sample_now t E).
Defined.

Lemma only_root_when_fetches_empty_sample :
  ∃ t, build_topology sample_repr (new_builder status_only_client) sample_now = Some t ∧
       devices t = [fortigate_device "fw" (get_system_status status_only_client) ∅] ∧
       connections t = [].
Proof.
  apply (only_root_when_fetches_empty sample_repr status_only_client sample_now);
    vm_compute; reflexivity.
Defined.

(** Against the three-tier reading: with "hostname" at both levels the
    root takes the nested one. *)
Lemma root_fields_not_three_tier : ¬ root_fields_three_tier.
Proof.
  intros H.
  destruct (returns_Some (build_topology sample_repr (new_builder hostname_client) sample_now))
    as [t E]; [vm_compute; reflexivity|].
  assert (N : (t ← build_topology sample_repr (new_builder hostname_client) sample_now;
               root ← head (devices t); root !! "name") = Some (VStr "nested"))
    by (vm_compute; reflexivity).
  rewrite E in N. simpl in N.
  destruct (head (devices t)) as [root|] eqn:Hroot; [|discriminate]. simpl in N.
  destruct (H sample_repr hostname_client sample_now t (ok (VDict hostname_data))
              hostname_data hostname_results root) as [Hname _];
    try reflexivity; try assumption.
  rewrite N in Hname. vm_compute in Hname. discriminate.
Qed.

Lemma root_device_fields_sample :
  (∃ t, build_topology sample_repr (new_builder sample_client) sample_now = Some t ∧
   ∃ root, head (devices t) = Some root ∧
   root !! "serial" = Some (VStr "FGT60F0000000001") ∧
   root !! "version" = Some (VStr "v7.4.1") ∧
   root !! "name" = Some (VStr "edge-fw") ∧
   (∃ md : dict, root !! "metadata" = Some (VDict md) ∧
                 md !! "status" = Some (VStr "success")) ∧
   root !! "model" = Some (VStr "FGT60F")) ∧
  (∃ t, build_topology sample_repr (new_builder results_list_client) sample_now = Some t ∧
   ∃ root, head (devices t) = Some root ∧
   root !! "serial" = Some (VStr "Unknown") ∧
   root !! "version" = Some (VStr "Unknown") ∧
   root !! "name" = Some (VStr "FortiGate") ∧
   (∃ md : dict, root !! "metadata" = Some (VDict md) ∧
                 md !! "status" = Some (VStr "unknown")) ∧
   root !! "model" = Some (VStr "Unknown")).
Proof.
  split.
  - run_builder t E.
    destruct (build_topology_root sample_repr sample_client sample_now t E) as [root Hroot].
    exists root. split; [exact Hroot|].
    destruct (root_device_fields sample_repr sample_client sample_now t root E Hroot)
      as (first & Hfirst & Hanswered & _).
    assert (F : first_result (get_system_info sample_client)
                = Some (VDict (mkdict [("platform_str", VStr "FortiGate-60F")])))
      by (vm_compute; reflexivity).
    rewrite F in Hfirst. injection Hfirst as <-.
    apply (Hanswered sample_status sample_status_results).
    exists (ok (VDict sample_status)). repeat split; vm_compute; reflexivity.
  - run_builder t E.
    destruct (build_topology_root sample_repr results_list_client sample_now t E)
      as [root Hroot].
    exists root. split; [exact Hroot|].
    destruct (root_device_fields sample_repr results_list_client sample_now t root E Hroot)
      as (first & Hfirst & _ & Hdefaults & _).
    assert (F : first_result (get_system_info results_list_client) = Some (VDict ∅))
      by (vm_compute; reflexivity).
    rewrite F in Hfirst. injection Hfirst as <-.
    apply Hdefaults.
    intros data results (r & Hr & _ & Hjson & Hres).
    assert (R : session_get results_list_client "/api/v2/monitor/system/status?vdom=root"
                = Some (ok (record [("serial", VStr "S1"); ("results", VList [])])))
      by (vm_compute; reflexivity).
    rewrite R in Hr. injection Hr as <-.
    simpl in Hjson. injection Hjson as <-.
    vm_compute in Hres. discriminate.
Defined.

(** Against unconditional uniqueness: two up interfaces named "wan1"
    give two devices with the id "interface_wan1". *)
Lemma device_ids_not_unique : ¬ device_ids_unique.
Proof.
  intros H.
  destruct (returns_Some (build_topology sample_repr (new_builder twin_client) sample_now))
    as [t E]; [vm_compute; reflexivity|].
  specialize (H sample_repr twin_client sample_now t E).
  assert (I : device_ids <$> build_topology sample_repr (new_builder twin_client) sample_now
              = Some [Some (VStr "fortigate_main"); Some (VStr "interface_wan1");
                      Some (VStr "interface_wan1")])
    by (vm_compute; reflexivity).
  rewrite E in I. simpl in I. injection I as I. rewrite I in H.
  apply NoDup_cons in H as [_ H]. apply NoDup_cons in H as [H _].
  apply H, elem_of_cons. by left.
Qed.

Lemma device_ids_unique_iff_sample :
  ∃ t, build_topology sample_repr (new_builder sample_client) sample_now = Some t ∧
  ∃ (ifaces switches aps users : list dict) (user_ids : list string),
    py_iter (get_interfaces sample_client) = Some (VDict <$> ifaces) ∧
    first_items 10 (get_managed_switches sample_client) = Some (VDict <$> switches) ∧
    first_items 20 (get_wifi_ap_list sample_client) = Some (VDict <$> aps) ∧
    first_items 50 (get_user_devices sample_client) = Some (VDict <$> users) ∧
    mapM (λ item, user_device_id item.1 item.2) (enumerate_from 0 users) = Some user_ids ∧
    (NoDup (device_ids t)
     ↔ NoDup (interface_id sample_repr <$> List.filter is_up ifaces) ∧
       NoDup ((λ item, switch_id sample_repr item.1 item.2) <$> enumerate_from 0 switches) ∧
       NoDup ((λ item, ap_id sample_repr item.1 item.2) <$> enumerate_from 0 aps) ∧
       NoDup user_ids).
Proof.
  run_builder t E.
  exact (device_ids_unique_iff sample_repr sample_client sample_now t E).
Defined.

Lemma interface_devices_iff_status_up_sample :
  ∃ t, build_topology sample_repr (new_builder sample_client) sample_now = Some t ∧
  ∃ ifaces : list dict,
    py_iter (get_interfaces sample_client) = Some (VDict <$> ifaces) ∧
    List.filter (has_type "interface") (devices t)
    = interface_device sample_repr <$> List.filter is_up ifaces ∧
    List.filter (targets "interface_") (connections t)
    = (λ iface, connection (VStr (interface_id sample_repr iface)) "network"
                  (get iface "speed" (VInt 0))) <$> List.filter is_up ifaces ∧
    (∀ iface : dict, is_up iface = true ↔ iface !! "status" = Some (VStr "up")) ∧
    (∀ iface : dict, iface !! "status" = Some (VStr "UP") ∨
                     iface !! "status" = Some (VStr "Up") → is_up iface = false).
Proof.
  run_builder t E.
  exact (interface_devices_iff_status_up sample_repr sample_client sample_now t E).
Defined.

Lemma endpoint_id_from_mac_sample :
  ∃ t, build_topology sample_repr (new_builder sample_client) sample_now = Some t ∧
  ∃ users : list dict,
    first_items 50 (get_user_devices sample_client) = Some (VDict <$> users) ∧
    Forall2 (λ (item : nat * dict) (dev : dict),
               ∀ mac, item.2 !! "mac" = Some (VStr mac) →
                 dev !! "id" = Some (VStr ("device_" +:+ replace ":" "_" mac)) ∧
                 list_ascii_of_string (replace ":" "_" mac)
                 = (λ ch, if Ascii.eqb ch ":" then "_" else ch)%char
                     <$> list_ascii_of_string mac)
            (enumerate_from 0 users)
            (List.filter (has_type "endpoint") (devices t)) ∧
    "device_" +:+ replace ":" "_" "aa:bb:cc:dd:ee:ff" = "device_aa_bb_cc_dd_ee_ff".
Proof.
  run_builder t E.
  exact (endpoint_id_from_mac sample_repr sample_client sample_now t E).
Defined.


Lemma switch_and_endpoint_bandwidth_sample :
  ∃ t, build_topology sample_repr (new_builder sample_client) sample_now = Some t ∧
  Forall2 (λ dev conn,
             (has_type "switch" dev = true → conn !! "bandwidth" = Some (VInt 1000)) ∧
             (conn !! "type" = Some (VStr "endpoint") → conn !! "bandwidth" = Some (VInt 100)))
          (tail (devices t)) (connections t) ∧
  Forall (λ conn, conn !! "type" = Some (VStr "endpoint") →
                  conn !! "bandwidth" = Some (VInt 100))
         (connections t).
Proof.
  run_builder t E.
  exact (switch_and_endpoint_bandwidth sample_repr sample_client sample_now t E).
Defined.

Lemma connections_one_less_than_devices_sample :
  ∃ t, build_topology sample_repr (new_builder sample_client) sample_now = Some t ∧
  length (devices t) = S (length (connections t)) ∧
  length (connections t) = (length (devices t) - 1)%nat.
Proof.
  run_builder t E.
  exact (connections_one_less_than_devices sample_repr sample_client sample_now t E).
Defined.

(** * Further properties *)

(** ** What the loops produce *)

Lemma enumerate_from_bounds {A} (l : list A) k i x :
  (i, x) ∈ enumerate_from k l → (k ≤ i < k + length l)%nat.
Proof.
  revert k. induction l as [|y l IH]; intros k; simpl.
  - by intros ?%elem_of_nil.
  - rewrite elem_of_cons. intros [[= -> ->]|H%IH]; lia.
Qed.

Lemma mapM_Forall_from {A B} (f : A → option B) (P : B → Prop) (l : list A) (k : list B) :
  mapM f l = Some k → (∀ x y, x ∈ l → f x = Some y → P y) → Forall P k.
Proof.
  rewrite mapM_Some. intros H HP.
  induction H as [|x y l k Hxy _ IH]; constructor.
  - apply (HP x); [apply elem_of_cons; by left|done].
  - apply IH. intros x' y' Hx'. apply HP. apply elem_of_cons. by right.
Qed.

Lemma first_items_fmap_length n v (ds : list dict) :
  first_items n v = Some (VDict <$> ds) → (length ds ≤ n)%nat.
Proof. intros H%first_items_length. by rewrite length_fmap in H. Qed.

Section Produced.

Variable py_repr : value → string.

(** Every pair of a returned topology was produced by one of the loops,
    within its cap. *)
Lemma build_topology_produced c now t :
  build_topology py_repr (new_builder c) now = Some t →
  ∃ (first : dict) (es : list (dict * dict)),
    first_result (get_system_info c) = Some (VDict first) ∧
    devices t = fortigate_device (host c) (get_system_status c) first :: es.*1 ∧
    connections t = es.*2 ∧
    Forall (produced py_repr) es.
Proof.
  intros H. apply build_topology_built in H.
  destruct H as [first ifaces switches aps users ap_part user_part n_switch n_ap n_endpoint
                 Hfirst _ Hsw Hap Hus Hap_part Huser_part _ _ _ root entries].
  exists first, entries. split; [exact Hfirst|]. split; [reflexivity|]. split; [reflexivity|].
  apply first_items_fmap_length in Hsw, Hap, Hus.
  unfold entries. rewrite !Forall_app. repeat split.
  - apply Forall_fmap, Forall_forall. intros iface Hin. simpl. apply produced_interface.
    apply list_elem_of_In, List.filter_In in Hin. tauto.
  - apply Forall_fmap, Forall_forall. intros [i sw] Hin%enumerate_from_bounds. simpl.
    apply produced_switch. lia.
  - eapply mapM_Forall_from; [exact Hap_part|].
    intros [i ap] p Hin%enumerate_from_bounds Hp. eapply produced_ap; [|exact Hp]. lia.
  - eapply mapM_Forall_from; [exact Huser_part|].
    intros [i d] p Hin%enumerate_from_bounds Hp. eapply produced_user; [|exact Hp]. lia.
Qed.

(** A property of every produced pair holds of every device of a
    returned topology after the root, paired with its connection. *)
Lemma build_topology_pairs (P : dict → dict → Prop) c now t :
  (∀ p, produced py_repr p → P p.1 p.2) →
  build_topology py_repr (new_builder c) now = Some t →
  Forall2 P (tail (devices t)) (connections t).
Proof.
  intros HP H. apply build_topology_produced in H.
  destruct H as (first & es & _ & -> & -> & Hes). simpl.
  apply Forall2_entries. eapply Forall_impl; [exact Hes|]. exact HP.
Qed.

End Produced.

(** ** When [build_topology] returns *)

Lemma as_dict_or_absent (d : dict) key :
  is_Some (as_dict (get d key (VDict ∅))) ↔ dict_or_absent d key.
Proof.
  unfold get, dict_or_absent. destruct (d !! key) as [v|]; simpl.
  - split.
    + intros [r Hr] v' [= <-]. destruct v; try discriminate. eauto.
    + intros H. destruct (H v eq_refl) as [r ->]. simpl. eauto.
  - split; [by intros _ v' ?|intros _; simpl; eauto].
Qed.

Lemma as_str_or_absent (d : dict) key dflt :
  is_Some (as_str (get d key (VStr dflt))) ↔ string_or_absent d key.
Proof.
  unfold get, string_or_absent. destruct (d !! key) as [v|]; simpl.
  - split.
    + intros [r Hr] v' [= <-]. destruct v; try discriminate. eauto.
    + intros H. destruct (H v eq_refl) as [r ->]. simpl. eauto.
  - split; [by intros _ v' ?|intros _; simpl; eauto].
Qed.

Lemma first_items_py_len n v items :
  first_items n v = Some items → is_Some (py_len v).
Proof. unfold first_items. destruct v; simpl; try done; eauto. Qed.

Lemma mapM_is_Some {A B} (f : A → option B) (l : list A) :
  is_Some (mapM f l) ↔ Forall (λ x, is_Some (f x)) l.
Proof.
  split.
  - intros [k Hk]. apply mapM_Some in Hk.
    induction Hk; constructor; eauto.
  - induction 1 as [|x l [y Hy] _ [k Hk]]; simpl; [eauto|].
    rewrite Hy, Hk. simpl. eauto.
Qed.

Lemma Forall_enumerate_from {A} (P : A → Prop) (l : list A) k :
  Forall (λ item, P item.2) (enumerate_from k l) ↔ Forall P l.
Proof.
  revert k. induction l as [|x l IH]; intros k; simpl.
  - split; constructor.
  - rewrite !Forall_cons, IH. done.
Qed.

Section Returns.

Variable py_repr : value → string.

Lemma ap_entry_is_Some i ap :
  is_Some (ap_entry py_repr (i, ap)) ↔ dict_or_absent ap "radio_1".
Proof.
  rewrite <- as_dict_or_absent. unfold ap_entry. cbn [fst snd].
  destruct (as_dict _); simpl; split; intros [? ?]; try done; eauto.
Qed.

Lemma user_entry_is_Some i d :
  is_Some (user_entry (i, d)) ↔ string_or_absent d "mac".
Proof.
  rewrite <- (as_str_or_absent d "mac" ("device_" +:+ pretty i)).
  unfold user_entry, user_device_id. cbn [fst snd].
  destruct (as_str _); simpl; split; intros [? ?]; try done; eauto.
Qed.

(** X1: [build_topology] returns (raises nothing) exactly when the
    system-info body is an object whose first result is an object, the
    interface results iterate to objects, the first 10 switches, first 20
    access points and first 50 endpoints are objects, every such access
    point has no "radio_1" or an object there, and every such endpoint
    has no "mac" or a string there.  Records past the caps are not
    looked at. *)
Theorem build_topology_returns_iff c now :
  is_Some (build_topology py_repr (new_builder c) now)
  ↔ (∃ first : dict, first_result (get_system_info c) = Some (VDict first)) ∧
    (∃ ifaces : list dict, py_iter (get_interfaces c) = Some (VDict <$> ifaces)) ∧
    (∃ switches : list dict,
        first_items 10 (get_managed_switches c) = Some (VDict <$> switches)) ∧
    (∃ aps : list dict,
        first_items 20 (get_wifi_ap_list c) = Some (VDict <$> aps) ∧
        Forall (λ ap, dict_or_absent ap "radio_1") aps) ∧
    (∃ users : list dict,
        first_items 50 (get_user_devices c) = Some (VDict <$> users) ∧
        Forall (λ device, string_or_absent device "mac") users).
Proof.
  split.
  - intros [t H]. apply build_topology_built in H.
    destruct H as [first ifaces switches aps users ap_part user_part n_switch n_ap n_endpoint
                   Hfirst Hif Hsw Hap Hus Hap_part Huser_part _ _ _ root entries].
    split; [eauto|]. split; [eauto|]. split; [eauto|]. split.
    + exists aps. split; [done|].
      apply (Forall_enumerate_from (λ ap, dict_or_absent ap "radio_1") aps 0).
      assert (Hs : is_Some (mapM (ap_entry py_repr) (enumerate_from 0 aps))) by eauto.
      apply mapM_is_Some in Hs. eapply Forall_impl; [exact Hs|].
      intros [i ap]. apply ap_entry_is_Some.
    + exists users. split; [done|].
      apply (Forall_enumerate_from (λ d, string_or_absent d "mac") users 0).
      assert (Hs : is_Some (mapM user_entry (enumerate_from 0 users))) by eauto.
      apply mapM_is_Some in Hs. eapply Forall_impl; [exact Hs|].
      intros [i d]. apply user_entry_is_Some.
  - intros ([first Hfirst] & [ifaces Hif] & [switches Hsw] & (aps & Hap & Haps)
            & (users & Hus & Husers)).
    assert (HA : is_Some (mapM (ap_entry py_repr) (enumerate_from 0 aps))).
    { apply mapM_is_Some.
      apply (Forall_enumerate_from (λ ap, dict_or_absent ap "radio_1") aps 0) in Haps.
      eapply Forall_impl; [exact Haps|]. intros [i ap]. apply ap_entry_is_Some. }
    assert (HU : is_Some (mapM user_entry (enumerate_from 0 users))).
    { apply mapM_is_Some.
      apply (Forall_enumerate_from (λ d, string_or_absent d "mac") users 0) in Husers.
      eapply Forall_impl; [exact Husers|]. intros [i d]. apply user_entry_is_Some. }
    destruct HA as [ap_part Hap_part]. destruct HU as [user_part Huser_part].
    destruct (first_items_py_len _ _ _ Hsw) as [n_switch Hn1].
    destruct (first_items_py_len _ _ _ Hap) as [n_ap Hn2].
    destruct (first_items_py_len _ _ _ Hus) as [n_endpoint Hn3].
    eexists. apply built_build_topology.
    exact (Built py_repr c now first ifaces switches aps users ap_part user_part
             n_switch n_ap n_endpoint Hfirst Hif Hsw Hap Hus Hap_part Huser_part Hn1 Hn2 Hn3).
Qed.

End Returns.

(** ** The shape of a returned topology *)

Lemma substring_length_min n s :
  String.length (substring 0 n s) = (String.length s `min` n)%nat.
Proof.
  revert s. induction n as [|n IH]; intros [|a s]; simpl; try done.
  by rewrite IH.
Qed.

Lemma first_items_length_min n v items m :
  first_items n v = Some items → py_len v = Some m → length items = (m `min` n)%nat.
Proof.
  unfold first_items. destruct v; simpl; try done; intros [= <-] [= <-].
  - by rewrite length_fmap, length_list_ascii_of_string, substring_length_min.
  - rewrite length_take. lia.
Qed.

Lemma Forall_entries_type_list prefix ty link (es : list (dict * dict)) :
  Forall (entry_of prefix ty link) es →
  (λ d : dict, d !! "type") <$> es.*1 = replicate (length es) (Some (VStr ty)).
Proof.
  induction 1 as [|p es (key & _ & Hty & _) _ IH]; [done|].
  rewrite !fmap_cons. simpl. by rewrite Hty, IH.
Qed.

Section Shape.

Variable py_repr : value → string.

Lemma build_topology_devices (P : dict → Prop) c now t :
  (∀ p, produced py_repr p → P p.1) →
  build_topology py_repr (new_builder c) now = Some t →
  Forall P (tail (devices t)).
Proof.
  intros HP H. apply build_topology_produced in H.
  destruct H as (first & es & _ & -> & _ & Hes). simpl.
  apply Forall_fmap. eapply Forall_impl; [exact Hes|]. exact HP.
Qed.

(** X2: the devices come in the order root, interfaces, switches, access
    points, endpoints; with the counts of [device_counts] (the number of
    up interfaces and the lengths of the three fetched results) there
    are as many interfaces as counted, but [min n 10] switches, [min n
    20] access points and [min n 50] endpoints. *)
Theorem device_types_in_order c now t :
  build_topology py_repr (new_builder c) now = Some t →
  ∃ n_interface n_switch n_ap n_endpoint : nat,
    count_up (get_interfaces c) = Some n_interface ∧
    py_len (get_managed_switches c) = Some n_switch ∧
    py_len (get_wifi_ap_list c) = Some n_ap ∧
    py_len (get_user_devices c) = Some n_endpoint ∧
    device_types t
    = Some (VStr "firewall")
      :: replicate n_interface (Some (VStr "interface"))
      ++ replicate (n_switch `min` 10) (Some (VStr "switch"))
      ++ replicate (n_ap `min` 20) (Some (VStr "access_point"))
      ++ replicate (n_endpoint `min` 50) (Some (VStr "endpoint")).
Proof.
  intros H. apply build_topology_built in H.
  destruct H as [first ifaces switches aps users ap_part user_part n_switch n_ap n_endpoint
                 _ Hif Hsw Hap Hus Hap_part Huser_part Hn1 Hn2 Hn3 root entries].
  exists (length (List.filter is_up ifaces)), n_switch, n_ap, n_endpoint.
  split.
  { unfold count_up. rewrite Hif. simpl.
    by rewrite (proj2 (mapM_as_dict _ _) eq_refl). }
  repeat (split; [done|]).
  unfold device_types, entries. cbn [devices]. rewrite fmap_cons. f_equal.
  rewrite !fmap_app.
  rewrite (Forall_entries_type_list _ _ _ _ (interface_entries_of py_repr _)),
    (Forall_entries_type_list _ _ _ _ (switch_entries_of py_repr _)),
    (Forall_entries_type_list _ _ _ _ (ap_entries_of py_repr _ _ Hap_part)),
    (Forall_entries_type_list _ _ _ _ (user_entries_of _ _ Huser_part)).
  rewrite !length_fmap, length_enumerate_from.
  apply mapM_Some, Forall2_length in Hap_part, Huser_part.
  rewrite <- Hap_part, <- Huser_part, !length_enumerate_from.
  rewrite <- (first_items_length_min _ _ _ _ Hsw Hn1), <- (first_items_length_min _ _ _ _ Hap Hn2),
    <- (first_items_length_min _ _ _ _ Hus Hn3), !length_fmap.
  done.
Qed.

Lemma produced_kinds p :
  produced py_repr p →
  p.1 !! "connected_to" = Some (VStr "fortigate_main") ∧
  p.2 !! "source" = Some (VStr "fortigate_main") ∧
  ((p.1 !! "type" = Some (VStr "interface") ∧ p.2 !! "type" = Some (VStr "network")) ∨
   (p.1 !! "type" = Some (VStr "switch") ∧ p.2 !! "type" = Some (VStr "network")) ∨
   (p.1 !! "type" = Some (VStr "access_point") ∧ p.2 !! "type" = Some (VStr "wifi")) ∨
   (p.1 !! "type" = Some (VStr "endpoint") ∧ p.2 !! "type" = Some (VStr "endpoint"))).
Proof.
  intros [iface _|i sw _|i ap p' _ Hp|i d p' _ Hp].
  - split; [reflexivity|]. split; [reflexivity|]. left. split; reflexivity.
  - split; [reflexivity|]. split; [reflexivity|]. right; left. split; reflexivity.
  - unfold ap_entry in Hp. destruct (as_dict _); simpl in Hp; [|done]. injection Hp as <-.
    split; [reflexivity|]. split; [reflexivity|]. right; right; left. split; reflexivity.
  - unfold user_entry in Hp. destruct (user_device_id _ _); simpl in Hp; [|done].
    injection Hp as <-.
    split; [reflexivity|]. split; [reflexivity|]. right; right; right. split; reflexivity.
Qed.

(** X3: the root is a "firewall" without "connected_to"; every other
    device is connected to "fortigate_main" and comes with a connection
    from "fortigate_main" whose type goes with the device's: "network"
    for an interface or a switch, "wifi" for an access point, "endpoint"
    for an endpoint. *)
Theorem connection_types_follow_devices c now t :
  build_topology py_repr (new_builder c) now = Some t →
  (∃ root : dict, head (devices t) = Some root ∧
                  root !! "type" = Some (VStr "firewall") ∧
                  root !! "connected_to" = None) ∧
  Forall2 (λ dev conn : dict,
             dev !! "connected_to" = Some (VStr "fortigate_main") ∧
             conn !! "source" = Some (VStr "fortigate_main") ∧
             ((dev !! "type" = Some (VStr "interface") ∧ conn !! "type" = Some (VStr "network")) ∨
              (dev !! "type" = Some (VStr "switch") ∧ conn !! "type" = Some (VStr "network")) ∨
              (dev !! "type" = Some (VStr "access_point") ∧ conn !! "type" = Some (VStr "wifi")) ∨
              (dev !! "type" = Some (VStr "endpoint") ∧ conn !! "type" = Some (VStr "endpoint"))))
          (tail (devices t)) (connections t).
Proof.
  intros H. split.
  - apply build_topology_produced in H. destruct H as (first & es & _ & -> & _).
    eexists. split; [reflexivity|]. split; reflexivity.
  - eapply (build_topology_pairs py_repr); [|exact H]. apply produced_kinds.
Qed.

(** X4: the metadata of a returned topology has the three keys
    "fortigate_info", "last_updated" and "device_counts"; "fortigate_info"
    is the root device (the first of the list) and "last_updated" the
    time of the run. *)
Theorem metadata_of_returned_topology c now t :
  build_topology py_repr (new_builder c) now = Some t →
  dom (metadata t) = ({["fortigate_info"; "last_updated"; "device_counts"]} : gset string) ∧
  metadata t !! "fortigate_info" = VDict <$> head (devices t) ∧
  metadata t !! "last_updated" = Some (VStr now).
Proof.
  intros H. apply build_topology_built in H. destruct H. cbn [metadata devices head].
  split; [|split]; reflexivity.
Qed.

End Shape.

(** ** A builder used again *)

Section Again.

Variable py_repr : value → string.

Lemma metadata_onto (old : dict) (a b c : value) :
  <["device_counts" := a]> (<["last_updated" := b]> (<["fortigate_info" := c]> old))
  = <["device_counts" := a]> (<["last_updated" := b]>
      (<["fortigate_info" := c]> (metadata empty_topology))) ∪ old.
Proof.
  rewrite <- (left_id_L ∅ (∪) old) at 1.
  rewrite !insert_union_l. f_equal.
Qed.

(** X5: a builder keeps what it built.  Called on a builder that
    already holds a topology, [build_topology] raises exactly when a
    fresh builder over the same client would, and otherwise returns the
    old devices followed by the fresh run's devices, the old connections
    followed by the fresh run's connections, and the fresh run's metadata
    over the old. *)
Theorem build_topology_again self now :
  build_topology py_repr self now
  = onto (topology self) <$> build_topology py_repr (new_builder (api_client self)) now.
Proof.
  destruct self as [c old].
  unfold build_topology, for_first, count_up. cbn [api_client topology new_builder].
  destruct (first_result (get_system_info c)) as [fr|]; simpl; [|done].
  destruct (as_dict fr) as [first|]; simpl; [|done].
  destruct (py_iter (get_interfaces c)) as [items|]; simpl; [|done].
  rewrite !(for_each_filtered _ _ _ (add_interface_entry py_repr)).
  destruct (mapM as_dict items) as [ifaces|]; simpl; [|done].
  destruct (first_items 10 (get_managed_switches c)) as [sitems|]; simpl; [|done].
  rewrite !(for_each_enumerated _ (λ item, Some (switch_entry py_repr item))
              (add_switch_entry py_repr)).
  destruct (mapM as_dict sitems) as [switches|]; simpl; [|done].
  rewrite mapM_total. simpl.
  destruct (first_items 20 (get_wifi_ap_list c)) as [aitems|]; simpl; [|done].
  rewrite !(for_each_enumerated _ _ (add_access_point_entry py_repr)).
  destruct (mapM as_dict aitems) as [aps|]; simpl; [|done].
  destruct (mapM (ap_entry py_repr) (enumerate_from 0 aps)) as [ap_part|]; simpl; [|done].
  destruct (first_items 50 (get_user_devices c)) as [uitems|]; simpl; [|done].
  rewrite !(for_each_enumerated _ _ add_user_device_entry).
  destruct (mapM as_dict uitems) as [users|]; simpl; [|done].
  destruct (mapM user_entry (enumerate_from 0 users)) as [user_part|]; simpl; [|done].
  destruct (py_len (get_managed_switches c)) as [n_switch|]; simpl; [|done].
  destruct (py_len (get_wifi_ap_list c)) as [n_ap|]; simpl; [|done].
  destruct (py_len (get_user_devices c)) as [n_endpoint|]; simpl; [|done].
  f_equal. unfold onto, set_metadata, extend, append_device.
  cbn [devices connections metadata]. f_equal.
  - by rewrite <- !app_assoc.
  - by rewrite <- !app_assoc.
  - apply metadata_onto.
Qed.

End Again.

(** ** Devices by kind *)

(** Decimal numerals hold no colon. *)
Lemma replace_pretty_N_go (x : N) (s : string) :
  replace ":" "_" s = s → replace ":" "_" (pretty_N_go x s) = pretty_N_go x s.
Proof.
  revert s. induction (N.lt_wf_0 x) as [x _ IH]; intros s Hs.
  assert (x = 0 ∨ 0 < x)%N as [->|?] by lia.
  - by rewrite pretty_N_go_0.
  - rewrite pretty_N_go_step by done. apply IH.
    { by apply N.div_lt. }
    simpl. rewrite Hs. unfold pretty_N_char. by repeat case_match.
Qed.

Lemma replace_append old new (a b : string) :
  replace old new (a +:+ b) = replace old new a +:+ replace old new b.
Proof. induction a as [|ch a IH]; simpl; [done|]. by rewrite IH. Qed.

Lemma replace_pretty_nat (i : nat) : replace ":" "_" (pretty i) = pretty i.
Proof.
  unfold pretty, pretty_nat, pretty, pretty_N.
  case_decide; [done|]. by apply replace_pretty_N_go.
Qed.

Section Kinds.

Variable py_repr : value → string.

(** The devices of each type, as the loop of that type appended them. *)
Lemma build_topology_kinds c now t :
  build_topology py_repr (new_builder c) now = Some t →
  ∃ (ifaces switches aps users : list dict) (ap_part user_part : list (dict * dict)),
    py_iter (get_interfaces c) = Some (VDict <$> ifaces) ∧
    first_items 10 (get_managed_switches c) = Some (VDict <$> switches) ∧
    first_items 20 (get_wifi_ap_list c) = Some (VDict <$> aps) ∧
    first_items 50 (get_user_devices c) = Some (VDict <$> users) ∧
    mapM (ap_entry py_repr) (enumerate_from 0 aps) = Some ap_part ∧
    mapM user_entry (enumerate_from 0 users) = Some user_part ∧
    List.filter (has_type "interface") (devices t)
    = (interface_entry py_repr <$> List.filter is_up ifaces).*1 ∧
    List.filter (has_type "switch") (devices t)
    = (switch_entry py_repr <$> enumerate_from 0 switches).*1 ∧
    List.filter (has_type "access_point") (devices t) = ap_part.*1 ∧
    List.filter (has_type "endpoint") (devices t) = user_part.*1.
Proof.
  intros H. apply build_topology_built in H.
  destruct H as [first ifaces switches aps users ap_part user_part n_switch n_ap n_endpoint
                 _ Hif Hsw Hap Hus Hap_part Huser_part _ _ _ root entries].
  exists ifaces, switches, aps, users, ap_part, user_part.
  repeat (split; [assumption|]).
  pose proof (interface_entries_of py_repr (List.filter is_up ifaces)) as HI.
  pose proof (switch_entries_of py_repr (enumerate_from 0 switches)) as HS.
  pose proof (ap_entries_of py_repr _ _ Hap_part) as HA.
  pose proof (user_entries_of _ _ Huser_part) as HE.
  assert (kind : ∀ ty, List.filter (has_type ty) (root :: entries.*1)
            = (if String.eqb "firewall" ty then [root] else [])
              ++ (if String.eqb "interface" ty
                  then (interface_entry py_repr <$> List.filter is_up ifaces).*1 else [])
              ++ (if String.eqb "switch" ty
                  then (switch_entry py_repr <$> enumerate_from 0 switches).*1 else [])
              ++ (if String.eqb "access_point" ty then ap_part.*1 else [])
              ++ (if String.eqb "endpoint" ty then user_part.*1 else [])).
  { intros ty. cbn [List.filter]. unfold entries.
    rewrite !fmap_app, !List.filter_app.
    rewrite (Forall_entries_types _ _ _ ty _ HI), (Forall_entries_types _ _ _ ty _ HS),
      (Forall_entries_types _ _ _ ty _ HA), (Forall_entries_types _ _ _ ty _ HE).
    change (has_type ty root) with (String.eqb "firewall" ty).
    by destruct (String.eqb "firewall" ty). }
  cbn [devices]. rewrite !kind. simpl. rewrite !app_nil_r. done.
Qed.

Lemma Forall2_enumerate_fmap {A B} (f : nat * A → B) (P : nat * A → B → Prop)
    (l : list (nat * A)) :
  (∀ item, P item (f item)) → Forall2 P l (f <$> l).
Proof. intros H. apply Forall2_fmap_r, Forall_Forall2_diag, Forall_forall. auto. Qed.

Lemma Forall2_mapM {A B C} (f : A → option B) (g : B → C) (P : A → C → Prop)
    (l : list A) (k : list B) :
  mapM f l = Some k → (∀ x y, f x = Some y → P x (g y)) → Forall2 P l (g <$> k).
Proof.
  intros H%mapM_Some HP. apply Forall2_fmap_r.
  eapply Forall2_impl; [exact H|]. exact HP.
Qed.

(** X8: a switch, access point or endpoint without a name (a MAC, for
    an endpoint) gets an id from its index in the capped list, with the
    prefix twice: "switch_switch_<i>", "ap_ap_<i>", "device_device_<i>",
    and the display names "Switch <i>", "AP <i>" and (without a
    hostname) "Device <i>"; two such ids are equal only for equal
    indices. *)
Theorem unnamed_devices_get_index_ids c now t :
  build_topology py_repr (new_builder c) now = Some t →
  ∃ switches aps users : list dict,
    first_items 10 (get_managed_switches c) = Some (VDict <$> switches) ∧
    first_items 20 (get_wifi_ap_list c) = Some (VDict <$> aps) ∧
    first_items 50 (get_user_devices c) = Some (VDict <$> users) ∧
    Forall2 (λ (item : nat * dict) (dev : dict),
               item.2 !! "name" = None →
               dev !! "id" = Some (VStr ("switch_switch_" +:+ pretty item.1)) ∧
               dev !! "name" = Some (VStr ("Switch " +:+ pretty item.1)))
            (enumerate_from 0 switches) (List.filter (has_type "switch") (devices t)) ∧
    Forall2 (λ (item : nat * dict) (dev : dict),
               item.2 !! "name" = None →
               dev !! "id" = Some (VStr ("ap_ap_" +:+ pretty item.1)) ∧
               dev !! "name" = Some (VStr ("AP " +:+ pretty item.1)))
            (enumerate_from 0 aps) (List.filter (has_type "access_point") (devices t)) ∧
    Forall2 (λ (item : nat * dict) (dev : dict),
               (item.2 !! "mac" = None →
                dev !! "id" = Some (VStr ("device_device_" +:+ pretty item.1))) ∧
               (item.2 !! "hostname" = None →
                dev !! "name" = Some (VStr ("Device " +:+ pretty item.1))))
            (enumerate_from 0 users) (List.filter (has_type "endpoint") (devices t)) ∧
    ∀ (prefix : string) (i j : nat), prefix +:+ pretty i = prefix +:+ pretty j → i = j.
Proof.
  intros H. apply build_topology_kinds in H.
  destruct H as (ifaces & switches & aps & users & ap_part & user_part
                 & _ & Hsw & Hap & Hus & Hap_part & Huser_part & _ & -> & -> & ->).
  exists switches, aps, users. repeat (split; [assumption|]).
  split; [|split; [|split]].
  - rewrite <- list_fmap_compose. apply Forall2_enumerate_fmap.
    intros [i sw] Hname. simpl in *.
    change (Some (VStr (switch_id py_repr i sw))
            = Some (VStr ("switch_switch_" +:+ pretty i))
            ∧ Some (get sw "name" (VStr ("Switch " +:+ pretty i)))
              = Some (VStr ("Switch " +:+ pretty i))).
    unfold switch_id, get. rewrite Hname. done.
  - eapply Forall2_mapM; [exact Hap_part|].
    intros [i ap] p Hp Hname. simpl in *.
    unfold ap_entry in Hp. destruct (as_dict _); simpl in Hp; [|done]. injection Hp as <-.
    change (Some (VStr (ap_id py_repr i ap)) = Some (VStr ("ap_ap_" +:+ pretty i))
            ∧ Some (get ap "name" (VStr ("AP " +:+ pretty i)))
              = Some (VStr ("AP " +:+ pretty i))).
    unfold ap_id, get. rewrite Hname. done.
  - eapply Forall2_mapM; [exact Huser_part|].
    intros [i d] p Hp. simpl in *.
    unfold user_entry in Hp. cbn [fst snd] in Hp.
    destruct (user_device_id i d) as [id|] eqn:Hid; simpl in Hp; [|done]. injection Hp as <-.
    split.
    + intros Hmac. unfold user_device_id, get in Hid. rewrite Hmac in Hid. simpl in Hid.
      injection Hid as <-.
      change (Some (VStr ("device_" +:+ replace ":" "_" ("device_" +:+ pretty i)))
              = Some (VStr ("device_device_" +:+ pretty i))).
      rewrite replace_append, replace_pretty_nat. reflexivity.
    + intros Hname.
      change (Some (get d "hostname" (VStr ("Device " +:+ pretty i)))
              = Some (VStr ("Device " +:+ pretty i))).
      unfold get. by rewrite Hname.
  - intros prefix i j Hij. apply (inj pretty).
    induction prefix as [|a prefix IH]; simpl in Hij; [done|].
    injection Hij as Hij. auto.
Qed.

End Kinds.

Lemma replace_removes old new (s : string) :
  old ≠ new → old ∉ list_ascii_of_string (replace old new s).
Proof.
  intros Hne. induction s as [|a s IH]; simpl.
  - apply not_elem_of_nil.
  - rewrite not_elem_of_cons. split; [|done].
    destruct (Ascii.eqb a old) eqn:E; [done|].
    apply Ascii.eqb_neq in E. congruence.
Qed.

Lemma fmap_VDict_inj (l k : list dict) : VDict <$> l = VDict <$> k → l = k.
Proof.
  intros H%mapM_as_dict. pose proof (proj2 (mapM_as_dict (VDict <$> l) l) eq_refl).
  congruence.
Qed.

Section Ids2.

Variable py_repr : value → string.

(** X9: up interfaces without a name all get the id
    "interface_unknown": with two of them the ids of the returned
    topology are not unique. *)
Theorem unnamed_interfaces_share_an_id c now t (ifaces : list dict) (i j : nat) (a b : dict) :
  build_topology py_repr (new_builder c) now = Some t →
  py_iter (get_interfaces c) = Some (VDict <$> ifaces) →
  List.filter is_up ifaces !! i = Some a →
  List.filter is_up ifaces !! j = Some b →
  i ≠ j →
  a !! "name" = None →
  b !! "name" = None →
  device_ids t !! S i = Some (Some (VStr "interface_unknown")) ∧
  device_ids t !! S j = Some (Some (VStr "interface_unknown")) ∧
  ¬ NoDup (device_ids t).
Proof.
  intros H Hif Hi Hj Hij Ha Hb. apply build_topology_built in H.
  destruct H as [first ifaces' switches aps users ap_part user_part n_switch n_ap n_endpoint
                 _ Hif' _ _ _ _ _ _ _ _ root entries].
  rewrite Hif in Hif'. injection Hif' as Hif'.
  apply fmap_VDict_inj in Hif' as <-.
  assert (at_index : ∀ k d, List.filter is_up ifaces !! k = Some d → d !! "name" = None →
            device_ids {| devices := root :: entries.*1; connections := entries.*2;
                          metadata := final_metadata root now n_switch n_ap n_endpoint
                                        (length (List.filter is_up ifaces)) |} !! S k
            = Some (Some (VStr "interface_unknown"))).
  { intros k d Hk Hd. unfold device_ids, entries. cbn [devices].
    rewrite fmap_cons, lookup_cons, !fmap_app, <- !list_fmap_compose.
    rewrite lookup_app_l by (rewrite length_fmap; eapply lookup_lt_Some, Hk).
    rewrite list_lookup_fmap, Hk. simpl.
    change (Some (Some (VStr (interface_id py_repr d)))
            = Some (Some (VStr "interface_unknown"))).
    unfold interface_id, get. by rewrite Hd. }
  pose proof (at_index i a Hi Ha) as Ei. pose proof (at_index j b Hj Hb) as Ej.
  split; [exact Ei|]. split; [exact Ej|].
  intros N. apply Hij. assert (S i = S j) as [= ->]; [|done].
  eapply NoDup_lookup; eauto.
Qed.

Lemma produced_bandwidth p :
  produced py_repr p →
  (p.1 !! "type" = Some (VStr "interface") →
   ∃ md : dict, p.1 !! "metadata" = Some (VDict md) ∧ p.2 !! "bandwidth" = md !! "speed") ∧
  (p.1 !! "type" = Some (VStr "access_point") →
   ∃ md radio_1 : dict,
     p.1 !! "metadata" = Some (VDict md) ∧
     md !! "radio_1" = Some (VDict radio_1) ∧
     p.2 !! "bandwidth" = Some (get radio_1 "max_bandwidth" (VInt 0))).
Proof.
  intros [iface _|i sw _|i ap p' _ Hp|i d p' _ Hp].
  - split; [|discriminate]. intros _. eexists. split; reflexivity.
  - split; discriminate.
  - unfold ap_entry in Hp. cbn [fst snd] in Hp.
    destruct (get ap "radio_1" (VDict ∅)) as [| | | | | |r] eqn:Hr; simpl in Hp; try done.
    injection Hp as <-. split; [discriminate|]. intros _.
    eexists _, r. split; [reflexivity|]. split; [|reflexivity].
    change (Some (get ap "radio_1" (VDict ∅)) = Some (VDict r)). by rewrite Hr.
  - unfold user_entry in Hp. destruct (user_device_id _ _); simpl in Hp; [|done].
    injection Hp as <-. split; discriminate.
Qed.

(** X16: the bandwidth of an interface's connection is the "speed" in
    the device's metadata (the fetched speed, or 0); the bandwidth of an
    access point's connection is the "max_bandwidth" of the "radio_1"
    object in the device's metadata, or 0 when that object has none. *)
Theorem bandwidth_follows_device_metadata c now t :
  build_topology py_repr (new_builder c) now = Some t →
  Forall2 (λ dev conn : dict,
             (dev !! "type" = Some (VStr "interface") →
              ∃ md : dict, dev !! "metadata" = Some (VDict md) ∧
                           conn !! "bandwidth" = md !! "speed") ∧
             (dev !! "type" = Some (VStr "access_point") →
              ∃ md radio_1 : dict,
                dev !! "metadata" = Some (VDict md) ∧
                md !! "radio_1" = Some (VDict radio_1) ∧
                conn !! "bandwidth" = Some (get radio_1 "max_bandwidth" (VInt 0))))
          (tail (devices t)) (connections t).
Proof.
  intros H. eapply (build_topology_pairs py_repr); [|exact H]. apply produced_bandwidth.
Qed.

Lemma produced_endpoint_id p :
  produced py_repr p →
  p.1 !! "type" = Some (VStr "endpoint") →
  ∃ s : string, p.1 !! "id" = Some (VStr ("device_" +:+ s)) ∧
                ":"%char ∉ list_ascii_of_string s.
Proof.
  intros [iface _|i sw _|i ap p' _ Hp|i d p' _ Hp].
  - discriminate.
  - discriminate.
  - unfold ap_entry in Hp. destruct (as_dict _); simpl in Hp; [|done].
    injection Hp as <-. discriminate.
  - unfold user_entry, user_device_id in Hp. cbn [fst snd] in Hp.
    destruct (as_str _) as [mac|]; simpl in Hp; [|done]. injection Hp as <-. intros _.
    exists (replace ":" "_" mac). split; [reflexivity|]. by apply replace_removes.
Qed.

(** X18: the id of an endpoint device is "device_" followed by a text
    without any ':'. *)
Theorem endpoint_ids_hold_no_colon c now t :
  build_topology py_repr (new_builder c) now = Some t →
  Forall (λ dev : dict,
            dev !! "type" = Some (VStr "endpoint") →
            ∃ s : string, dev !! "id" = Some (VStr ("device_" +:+ s)) ∧
                          ":"%char ∉ list_ascii_of_string s)
         (devices t).
Proof.
  intros H.
  pose proof (build_topology_devices py_repr
                (λ dev : dict, dev !! "type" = Some (VStr "endpoint") →
                   ∃ s : string, dev !! "id" = Some (VStr ("device_" +:+ s)) ∧
                                 ":"%char ∉ list_ascii_of_string s)
                c now t produced_endpoint_id H) as T.
  apply build_topology_produced in H. destruct H as (first & es & _ & Hd & _).
  rewrite Hd in *. simpl in T. constructor; [discriminate|exact T].
Qed.

End Ids2.

(** ** Exporting what was built *)

Lemma babylon_connection_connection target type bandwidth :
  babylon_connection (connection target type bandwidth)
  = Some (connection target type bandwidth).
Proof. reflexivity. Qed.

Lemma babylon_model_Some d m : babylon_model d = Some m → model_of d m.
Proof.
  unfold babylon_model. intros H.
  destruct (d !! "id") as [id|] eqn:Hid; simpl in H; [|done].
  destruct (d !! "name") as [name|] eqn:Hname; simpl in H; [|done].
  destruct (d !! "type") as [ty|] eqn:Hty; simpl in H; [|done].
  destruct (d !! "position") as [pos|] eqn:Hpos; simpl in H; [|done].
  injection H as <-. unfold model_of. rewrite Hid, Hname, Hty, Hpos.
  repeat split; reflexivity.
Qed.

Lemma mapM_same {A} (f : A → option A) (l : list A) :
  Forall (λ x, f x = Some x) l → mapM f l = Some l.
Proof. intros H. apply mapM_Some. induction H; constructor; auto. Qed.

Section Exported.

Variable py_repr : value → string.

Lemma produced_connection_verbatim p :
  produced py_repr p → babylon_connection p.2 = Some p.2.
Proof.
  intros [iface _|i sw _|i ap p' _ Hp|i d p' _ Hp].
  - apply babylon_connection_connection.
  - apply babylon_connection_connection.
  - unfold ap_entry in Hp. destruct (as_dict _); simpl in Hp; [|done].
    injection Hp as <-. apply babylon_connection_connection.
  - unfold user_entry in Hp. destruct (user_device_id _ _); simpl in Hp; [|done].
    injection Hp as <-. apply babylon_connection_connection.
Qed.

Lemma export_returns_after_build c now t :
  build_topology py_repr (new_builder c) now = Some t →
  ∃ b, export_to_babylon_format {| api_client := c; topology := t |} = Some b.
Proof.
  intros H. destruct (build_topology_exportable py_repr c now t H) as [Hd Hc].
  destruct (mapM_Forall2 _ _ _ _ babylon_model_of Hd) as (ms & Hms & _).
  destruct (mapM_Forall2 _ _ _ _ babylon_connection_of Hc) as (cs & Hcs & _).
  unfold export_to_babylon_format. cbn [topology]. rewrite Hms, Hcs. simpl. eauto.
Qed.

(** X6: whatever [build_topology] returns, [export_to_babylon_format]
    on that builder returns too (no subscript of it fails); the exported
    connections are the topology's connections, dictionary for
    dictionary, the metadata is the topology's, and the names and
    categories of the models are the ids and types of the devices, in
    order. *)
Theorem export_after_build c now t :
  build_topology py_repr (new_builder c) now = Some t →
  ∃ b, export_to_babylon_format {| api_client := c; topology := t |} = Some b ∧
       babylon_connections b = connections t ∧
       babylon_metadata b = metadata t ∧
       (λ m : dict, m !! "name") <$> models b = device_ids t ∧
       (λ m : dict, m !! "category") <$> models b = device_types t.
Proof.
  intros H.
  destruct (build_topology_exportable py_repr c now t H) as [Hd _].
  destruct (mapM_Forall2 _ _ _ _ babylon_model_of Hd) as (ms & Hms & HM).
  destruct (build_topology_produced py_repr c now t H) as (first & es & _ & _ & Hc & Hes).
  assert (Hcs : mapM babylon_connection (connections t) = Some (connections t)).
  { apply mapM_same. rewrite Hc. apply Forall_fmap.
    eapply Forall_impl; [exact Hes|]. apply produced_connection_verbatim. }
  unfold export_to_babylon_format. cbn [topology]. rewrite Hms, Hcs. simpl.
  eexists. split; [reflexivity|]. cbn [babylon_connections babylon_metadata models].
  split; [done|]. split; [done|].
  unfold device_ids, device_types. clear -HM.
  induction HM as [|d m ds ms (Hn & _ & Hc & _) _ [IH1 IH2]]; [done|].
  rewrite !fmap_cons. by rewrite Hn, Hc, IH1, IH2.
Qed.

Lemma produced_without_model p :
  produced py_repr p →
  p.1 !! "type" = Some (VStr "interface") ∨ p.1 !! "type" = Some (VStr "endpoint") →
  p.1 !! "model" = None ∧ p.1 !! "serial" = None.
Proof.
  intros [iface _|i sw _|i ap p' _ Hp|i d p' _ Hp].
  - intros _. split; reflexivity.
  - intros [?|?]; discriminate.
  - unfold ap_entry in Hp. destruct (as_dict _); simpl in Hp; [|done].
    injection Hp as <-. intros [?|?]; discriminate.
  - unfold user_entry in Hp. destruct (user_device_id _ _); simpl in Hp; [|done].
    injection Hp as <-. intros _. split; reflexivity.
Qed.

(** X7: interface and endpoint devices are built without "model" and
    "serial"; in the export their "properties" hold the empty string for
    both, next to the device's "ip". *)
Theorem export_fills_missing_model_and_serial c now t b :
  build_topology py_repr (new_builder c) now = Some t →
  export_to_babylon_format {| api_client := c; topology := t |} = Some b →
  Forall2 (λ dev model : dict,
             dev !! "type" = Some (VStr "interface") ∨
             dev !! "type" = Some (VStr "endpoint") →
             dev !! "model" = None ∧ dev !! "serial" = None ∧
             model !! "properties"
             = Some (VDict (mkdict [("ip", get dev "ip" (VStr ""));
                                    ("model", VStr "");
                                    ("serial", VStr "")])))
          (devices t) (models b).
Proof.
  intros H Hb.
  pose proof (build_topology_devices py_repr
                (λ dev : dict, dev !! "type" = Some (VStr "interface") ∨
                               dev !! "type" = Some (VStr "endpoint") →
                               dev !! "model" = None ∧ dev !! "serial" = None)
                c now t produced_without_model H) as T.
  destruct (build_topology_produced py_repr c now t H) as (first & es & _ & Hd & _).
  assert (T' : Forall (λ dev : dict, dev !! "type" = Some (VStr "interface") ∨
                                     dev !! "type" = Some (VStr "endpoint") →
                                     dev !! "model" = None ∧ dev !! "serial" = None)
                 (devices t)).
  { rewrite Hd in *. simpl in T. constructor; [|exact T]. intros [?|?]; discriminate. }
  unfold export_to_babylon_format in Hb. cbn [topology] in Hb.
  destruct (mapM babylon_model (devices t)) as [ms|] eqn:Hms; simpl in Hb; [|done].
  destruct (mapM babylon_connection (connections t)) as [cs|]; simpl in Hb; [|done].
  injection Hb as <-. cbn [models].
  apply mapM_Some in Hms. clear -Hms T'.
  induction Hms as [|d m ds ms Hm _ IH]; [constructor|].
  apply Forall_cons in T' as [Td T']. constructor; [|by apply IH].
  intros Hty. destruct (Td Hty) as [Hmodel Hserial]. repeat split; try done.
  apply babylon_model_Some in Hm as (_ & _ & _ & _ & _ & _ & ->).
  unfold get at 2 3. by rewrite Hmodel, Hserial.
Qed.

End Exported.

(** ** The fetch methods *)

Lemma get_list_inv c path :
  get_list c path ≠ VList [] →
  ∃ r (d : dict),
    session_get c path = Some r ∧ ¬ (400 ≤ status_code r < 600) ∧
    json r = Some (VDict d) ∧ d !! "results" = Some (get_list c path).
Proof.
  unfold get_list, raise_for_status, results_or_empty_list, get.
  destruct (session_get c path) as [r|]; simpl; [|by intros []].
  case_bool_decide as Hcode; simpl; [by intros []|].
  destruct (json r) as [data|] eqn:Hjson; simpl; [|by intros []].
  destruct data as [| | | | | |d]; simpl; try by intros [].
  destruct (d !! "results") as [v|] eqn:Hv; simpl; [|by intros []].
  intros _. by exists r, d.
Qed.

Lemma get_results_inv c path :
  get_results c path ≠ VList [] →
  ∃ r (d : dict),
    session_get c path = Some r ∧ status_code r = 200 ∧
    json r = Some (VDict d) ∧ d !! "results" = Some (get_results c path).
Proof.
  unfold get_results, results_or_empty_list, get.
  destruct (session_get c path) as [r|]; simpl; [|by intros []].
  case_bool_decide as Hcode; simpl; [|by intros []].
  destruct (json r) as [data|] eqn:Hjson; simpl; [|by intros []].
  destruct data as [| | | | | |d]; simpl; try by intros [].
  destruct (d !! "results") as [v|] eqn:Hv; simpl; [|by intros []].
  intros _. by exists r, d.
Qed.

Lemma get_body_inv c path :
  get_body c path ≠ VDict ∅ →
  ∃ r, session_get c path = Some r ∧ ¬ (400 ≤ status_code r < 600) ∧
       json r = Some (get_body c path).
Proof.
  unfold get_body, raise_for_status.
  destruct (session_get c path) as [r|]; simpl; [|by intros []].
  case_bool_decide as Hcode; simpl; [by intros []|].
  destruct (json r) as [data|] eqn:Hjson; simpl; [|by intros []].
  intros _. by exists r.
Qed.

(** X11: a fetch that returns anything but its empty default returns
    what the appliance answered.  For the list fetches that is the
    "results" entry of a JSON object, answered under a status outside
    400..599 for those that call [raise_for_status] (interfaces, firewall
    policies, addresses, VIPs, DHCP servers and leases) and under status
    200 for the other three (access points, managed switches, user
    devices); for the WiFi settings and the switch controller it is the
    whole body, under a status outside 400..599.  A request that raises,
    a refused status or a body that is not JSON gives [[]] (for the last
    two fetches [{}]), and so does, for a list fetch, a body that is not
    an object or has no "results". *)
Theorem fetches_return_what_was_answered c v :
  (v ∈ [get_interfaces c; get_firewall_policies c; get_addresses c; get_vips c;
        get_dhcp_servers c; get_dhcp_leases c] →
   v ≠ VList [] →
   ∃ path r (d : dict),
     session_get c path = Some r ∧ ¬ (400 ≤ status_code r < 600) ∧
     json r = Some (VDict d) ∧ d !! "results" = Some v) ∧
  (v ∈ [get_wifi_ap_list c; get_managed_switches c; get_user_devices c] →
   v ≠ VList [] →
   ∃ path r (d : dict),
     session_get c path = Some r ∧ status_code r = 200 ∧
     json r = Some (VDict d) ∧ d !! "results" = Some v) ∧
  (v ∈ [get_wifi_settings c; get_switch_controller c] →
   v ≠ VDict ∅ →
   ∃ path r,
     session_get c path = Some r ∧ ¬ (400 ≤ status_code r < 600) ∧ json r = Some v).
Proof.
  split; [|split].
  - rewrite !elem_of_cons, elem_of_nil.
    intros [->|[->|[->|[->|[->|[->|[]]]]]]] Hv;
      (eexists; apply get_list_inv; exact Hv).
  - rewrite !elem_of_cons, elem_of_nil.
    intros [->|[->|[->|[]]]] Hv;
      (eexists; apply get_results_inv; exact Hv).
  - rewrite !elem_of_cons, elem_of_nil.
    intros [->|[->|[]]] Hv;
      (eexists; apply get_body_inv; exact Hv).
Qed.

(** X10: [get_system_status] returns either the empty dictionary or,
    for a 200 answer with an object body whose "results" is an object
    (or absent), that "results" object with "serial", "version",
    "hostname" and "status" set on top: these four keys are present and
    every other key is exactly as in "results". *)
Theorem system_status_is_empty_or_merged c :
  get_system_status c = ∅ ∨
  ∃ r (data results : dict),
    session_get c "/api/v2/monitor/system/status?vdom=root" = Some r ∧
    status_code r = 200 ∧
    json r = Some (VDict data) ∧
    get data "results" (VDict ∅) = VDict results ∧
    Forall (λ key, is_Some (get_system_status c !! key))
      ["serial"; "version"; "hostname"; "status"] ∧
    ∀ key, key ∉ ["serial"; "version"; "hostname"; "status"] →
           get_system_status c !! key = results !! key.
Proof.
  unfold get_system_status.
  destruct (session_get c _) as [r|] eqn:Hr; simpl; [|by left].
  case_bool_decide as Hcode; simpl; [|by left].
  destruct (json r) as [data|] eqn:Hjson; simpl; [|by left].
  unfold status_data.
  destruct data as [| | | | | |data]; simpl; try by left.
  destruct (get data "results" (VDict ∅)) as [| | | | | |results] eqn:Hres; simpl; try by left.
  right. exists r, data, results. repeat (split; [done|]). split.
  - repeat constructor; rewrite ?lookup_insert_ne by done; rewrite lookup_insert_eq; eauto.
  - intros key Hkey. rewrite !not_elem_of_cons in Hkey.
    destruct Hkey as (? & ? & ? & ? & _). by rewrite !lookup_insert_ne by done.
Qed.

(** ** Connecting *)

(** X12: [test_connection] succeeds exactly when the client has a
    non-empty API token, the status request with [?vdom=root] is answered
    200 with a content type starting "application/json", and the status
    request without it is answered 200 as well. *)
Theorem test_connection_iff self :
  test_connection self = true
  ↔ has_token self = true ∧
    (∃ r, session_get (client self) "/api/v2/monitor/system/status?vdom=root" = Some r ∧
          status_code r = 200) ∧
    String.prefix "application/json"
      (content_type_at self "/api/v2/monitor/system/status?vdom=root") = true ∧
    (∃ r, session_get (client self) "/api/v2/monitor/system/status" = Some r ∧
          status_code r = 200).
Proof.
  unfold test_connection, login.
  destruct (has_token self); simpl;
    [|split; [discriminate|intros (? & _); discriminate]].
  destruct (session_get (client self) "/api/v2/monitor/system/status?vdom=root") as [r|];
    simpl; [|split; [discriminate|intros (_ & (r & ? & _) & _); discriminate]].
  case_bool_decide as Hcode; simpl;
    [|split; [discriminate|intros (_ & (r0 & [= <-] & ?) & _); done]].
  destruct (String.prefix _ _); simpl;
    [|split; [discriminate|intros (_ & _ & ? & _); discriminate]].
  destruct (session_get (client self) "/api/v2/monitor/system/status") as [r'|];
    simpl; [|split; [discriminate|intros (_ & _ & _ & (r0 & ? & _)); discriminate]].
  case_bool_decide as Hcode'.
  - split; [intros _|done]. repeat split; eauto.
  - split; [discriminate|intros (_ & _ & _ & (r0 & [= <-] & ?)); done].
Qed.

(** X13: [main] constructs its client without an API token, so the
    connection test fails whatever the appliance answers: [main] always
    stops at "Failed to connect" and never builds or writes a topology. *)
Theorem main_never_connects py_repr args appliance content_type now :
  main py_repr args appliance content_type now = NotConnected.
Proof. reflexivity. Qed.

(** X14: the discovery runner never builds a topology either: with
    [--create-env] it only tries to create the [.env] file (done exactly
    when there is none and the template exists), with [--config] it only
    prints, and otherwise it exits with status 1, at the configuration
    check or at the connection test of a client without API token. *)
Theorem run_main_outcome py_repr args cfg env_exists example_exists appliance content_type now :
  run_main py_repr args cfg env_exists example_exists appliance content_type now
  = if run_create_env args then EnvFile (negb env_exists && example_exists)
    else if run_config args then ConfigShown
    else Exit 1.
Proof.
  unfold run_main. destruct (run_create_env args); [done|].
  destruct (run_config args); [done|].
  by destruct (validate_config _).
Qed.

(** X15: command-line overrides compose: updating twice is updating
    once with, for each setting, the later value if there is one and the
    earlier one otherwise; updating with nothing changes nothing. *)
Theorem update_fortigate_config_compose
    (h1 h2 : option string) (p1 p2 : option Z) (u1 u2 w1 w2 : option string)
    (v1 v2 : option bool) cfg :
  update_fortigate_config h2 p2 u2 w2 v2 (update_fortigate_config h1 p1 u1 w1 v1 cfg)
  = update_fortigate_config (h2 ∪ h1) (p2 ∪ p1) (u2 ∪ u1) (w2 ∪ w1) (v2 ∪ v1) cfg ∧
  update_fortigate_config None None None None None cfg = cfg.
Proof.
  split; [|by destruct cfg].
  unfold update_fortigate_config. simpl.
  by destruct h1, h2, p1, p2, u1, u2, w1, w2, v1, v2.
Qed.

(** ** Layout *)

(** No product [i * 1.5] or [i * 0.5] within the caps is rounded. *)
Lemma ap_heights_exact :
  (λ i, PrimFloat.mul (float_of_nat i) 1.5%float) <$> seq 0 20 = ap_heights.
Proof. vm_compute. reflexivity. Qed.

Lemma endpoint_heights_exact :
  (λ i, PrimFloat.mul (float_of_nat i) 0.5%float) <$> seq 0 50 = endpoint_heights.
Proof. vm_compute. reflexivity. Qed.

Lemma enumerate_from_indices {A} (l : list A) k :
  (enumerate_from k l).*1 = seq k (length l).
Proof. revert k. induction l as [|x l IH]; intros k; simpl; [done|]. by rewrite IH. Qed.

Lemma take_fmap_seq {A} (f : nat → A) (n m : nat) :
  (n ≤ m)%nat → take n (f <$> seq 0 m) = f <$> seq 0 n.
Proof.
  intros Hn. rewrite <- fmap_take, take_seq. f_equal. f_equal. lia.
Qed.

Lemma Forall2_heights {A} (f : nat → float) (P : float → dict → Prop)
    (l : list A) (devs : list dict) :
  Forall2 (λ (item : nat * A) dev, P (f item.1) dev) (enumerate_from 0 l) devs →
  Forall2 P (f <$> seq 0 (length l)) devs.
Proof.
  intros H. rewrite <- enumerate_from_indices, <- list_fmap_compose.
  by apply Forall2_fmap_l.
Qed.

Section Layout.

Variable py_repr : value → string.

(** X19: the root sits at (0, 0, 0) and every interface at (2, 0, 0),
    whatever their number; the i-th switch sits at (-3, 0, 2 i), the
    i-th access point at (3, 0, 1.5 i) and the i-th endpoint at
    (5, 0, 0.5 i), the heights being the exact decimals of
    [ap_heights] and [endpoint_heights]. *)
Theorem devices_are_laid_out c now t :
  build_topology py_repr (new_builder c) now = Some t →
  (∃ root : dict, head (devices t) = Some root ∧
                  root !! "position" = Some (position (VInt 0) (VInt 0) (VInt 0))) ∧
  Forall (λ dev : dict, dev !! "position" = Some (position (VInt 2) (VInt 0) (VInt 0)))
         (List.filter (has_type "interface") (devices t)) ∧
  Forall2 (λ (i : nat) (dev : dict),
             dev !! "position"
             = Some (position (VInt (-3)) (VInt 0) (VInt (Z.of_nat i * 2))))
          (seq 0 (length (List.filter (has_type "switch") (devices t))))
          (List.filter (has_type "switch") (devices t)) ∧
  Forall2 (λ (z : float) (dev : dict),
             dev !! "position" = Some (position (VInt 3) (VInt 0) (VFloat z)))
          (take (length (List.filter (has_type "access_point") (devices t))) ap_heights)
          (List.filter (has_type "access_point") (devices t)) ∧
  Forall2 (λ (z : float) (dev : dict),
             dev !! "position" = Some (position (VInt 5) (VInt 0) (VFloat z)))
          (take (length (List.filter (has_type "endpoint") (devices t))) endpoint_heights)
          (List.filter (has_type "endpoint") (devices t)).
Proof.
  intros H. split.
  { apply build_topology_produced in H. destruct H as (first & es & _ & -> & _).
    eexists. split; reflexivity. }
  apply build_topology_kinds in H.
  destruct H as (ifaces & switches & aps & users & ap_part & user_part
                 & _ & Hsw & Hap & Hus & Hap_part & Huser_part & -> & -> & -> & ->).
  apply first_items_fmap_length in Hsw, Hap, Hus.
  split; [|split; [|split]].
  - rewrite <- list_fmap_compose. apply Forall_fmap, Forall_forall. intros iface _.
    reflexivity.
  - rewrite !length_fmap, length_enumerate_from.
    rewrite <- (enumerate_from_indices switches 0), <- list_fmap_compose.
    apply Forall2_fmap, Forall_Forall2_diag, Forall_forall. intros [i sw] _. reflexivity.
  - pose proof Hap_part as Hlen. apply mapM_Some, Forall2_length in Hlen.
    rewrite length_enumerate_from in Hlen.
    rewrite length_fmap, <- Hlen, <- ap_heights_exact, take_fmap_seq by done.
    apply Forall2_heights. eapply Forall2_mapM; [exact Hap_part|].
    intros [i ap] p Hp. unfold ap_entry in Hp.
    destruct (as_dict _); simpl in Hp; [|done]. by injection Hp as <-.
  - pose proof Huser_part as Hlen. apply mapM_Some, Forall2_length in Hlen.
    rewrite length_enumerate_from in Hlen.
    rewrite length_fmap, <- Hlen, <- endpoint_heights_exact, take_fmap_seq by done.
    apply Forall2_heights. eapply Forall2_mapM; [exact Huser_part|].
    intros [i d] p Hp. unfold user_entry in Hp.
    destruct (user_device_id _ _); simpl in Hp; [|done]. by injection Hp as <-.
Qed.

Lemma get_results_agree c c' path :
  session_get c path = session_get c' path → get_results c path = get_results c' path.
Proof. unfold get_results. by intros ->. Qed.

(** X17: [build_topology] reads the client's host and the answers to
    six requests, nothing else: two clients with the same host whose
    appliances answer those six alike give the same result, whatever
    else differs (the port, the answers to any other request). *)
Theorem build_topology_reads_six_answers c c' now :
  host c = host c' →
  Forall (λ path, session_get c path = session_get c' path) topology_paths →
  build_topology py_repr (new_builder c) now = build_topology py_repr (new_builder c') now.
Proof.
  intros Hhost H. unfold topology_paths in H.
  repeat (apply Forall_cons in H as [? H]).
  assert (get_system_status c = get_system_status c') as Est
    by (unfold get_system_status; congruence).
  assert (get_system_info c = get_system_info c') as Einfo
    by (unfold get_system_info; congruence).
  assert (get_interfaces c = get_interfaces c') as Eif
    by (unfold get_interfaces; congruence).
  assert (get_managed_switches c = get_managed_switches c') as Esw
    by (by apply get_results_agree).
  assert (get_wifi_ap_list c = get_wifi_ap_list c') as Eap
    by (by apply get_results_agree).
  assert (get_user_devices c = get_user_devices c') as Eus
    by (by apply get_results_agree).
  unfold build_topology. cbn [api_client topology new_builder].
  by rewrite Est, Einfo, Eif, Esw, Eap, Eus, Hhost.
Qed.

End Layout.

(** ** The further properties on the sample appliances *)

Lemma device_types_in_order_sample :
  ∃ t, build_topology sample_repr (new_builder sample_client) sample_now = Some t ∧
  ∃ n_interface n_switch n_ap n_endpoint : nat,
    count_up (get_interfaces sample_client) = Some n_interface ∧
    py_len (get_managed_switches sample_client) = Some n_switch ∧
    py_len (get_wifi_ap_list sample_client) = Some n_ap ∧
    py_len (get_user_devices sample_client) = Some n_endpoint ∧
    device_types t
    = Some (VStr "firewall")
      :: replicate n_interface (Some (VStr "interface"))
      ++ replicate (n_switch `min` 10) (Some (VStr "switch"))
      ++ replicate (n_ap `min` 20) (Some (VStr "access_point"))
      ++ replicate (n_endpoint `min` 50) (Some (VStr "endpoint")).
Proof.
  run_builder t E.
  exact (device_types_in_order sample_repr sample_client sample_now t E).
Defined.

Lemma connection_types_follow_devices_sample :
  ∃ t, build_topology sample_repr (new_builder sample_client) sample_now = Some t ∧
  (∃ root : dict, head (devices t) = Some root ∧
                  root !! "type" = Some (VStr "firewall") ∧
                  root !! "connected_to" = None) ∧
  Forall2 (λ dev conn : dict,
             dev !! "connected_to" = Some (VStr "fortigate_main") ∧
             conn !! "source" = Some (VStr "fortigate_main") ∧
             ((dev !! "type" = Some (VStr "interface") ∧ conn !! "type" = Some (VStr "network")) ∨
              (dev !! "type" = Some (VStr "switch") ∧ conn !! "type" = Some (VStr "network")) ∨
              (dev !! "type" = Some (VStr "access_point") ∧ conn !! "type" = Some (VStr "wifi")) ∨
              (dev !! "type" = Some (VStr "endpoint") ∧ conn !! "type" = Some (VStr "endpoint"))))
          (tail (devices t)) (connections t).
Proof.
  run_builder t E.
  exact (connection_types_follow_devices sample_repr sample_client sample_now t E).
Defined.

Lemma metadata_of_returned_topology_sample :
  ∃ t, build_topology sample_repr (new_builder sample_client) sample_now = Some t ∧
  dom (metadata t) = ({["fortigate_info"; "last_updated"; "device_counts"]} : gset string) ∧
  metadata t !! "fortigate_info" = VDict <$> head (devices t) ∧
  metadata t !! "last_updated" = Some (VStr sample_now).
Proof.
  run_builder t E.
  exact (metadata_of_returned_topology sample_repr sample_client sample_now t E).
Defined.

Lemma unnamed_devices_get_index_ids_sample :
  ∃ t, build_topology sample_repr (new_builder unnamed_client) sample_now = Some t ∧
  ∃ switches aps users : list dict,
    first_items 10 (get_managed_switches unnamed_client) = Some (VDict <$> switches) ∧
    first_items 20 (get_wifi_ap_list unnamed_client) = Some (VDict <$> aps) ∧
    first_items 50 (get_user_devices unnamed_client) = Some (VDict <$> users) ∧
    Forall2 (λ (item : nat * dict) (dev : dict),
               item.2 !! "name" = None →
               dev !! "id" = Some (VStr ("switch_switch_" +:+ pretty item.1)) ∧
               dev !! "name" = Some (VStr ("Switch " +:+ pretty item.1)))
            (enumerate_from 0 switches) (List.filter (has_type "switch") (devices t)) ∧
    Forall2 (λ (item : nat * dict) (dev : dict),
               item.2 !! "name" = None →
               dev !! "id" = Some (VStr ("ap_ap_" +:+ pretty item.1)) ∧
               dev !! "name" = Some (VStr ("AP " +:+ pretty item.1)))
            (enumerate_from 0 aps) (List.filter (has_type "access_point") (devices t)) ∧
    Forall2 (λ (item : nat * dict) (dev : dict),
               (item.2 !! "mac" = None →
                dev !! "id" = Some (VStr ("device_device_" +:+ pretty item.1))) ∧
               (item.2 !! "hostname" = None →
                dev !! "name" = Some (VStr ("Device " +:+ pretty item.1))))
            (enumerate_from 0 users) (List.filter (has_type "endpoint") (devices t)) ∧
    ∀ (prefix : string) (i j : nat), prefix +:+ pretty i = prefix +:+ pretty j → i = j.
Proof.
  run_builder t E.
  exact (unnamed_devices_get_index_ids sample_repr unnamed_client sample_now t E).
Defined.

Lemma bandwidth_follows_device_metadata_sample :
  ∃ t, build_topology sample_repr (new_builder sample_client) sample_now = Some t ∧
  Forall2 (λ dev conn : dict,
             (dev !! "type" = Some (VStr "interface") →
              ∃ md : dict, dev !! "metadata" = Some (VDict md) ∧
                           conn !! "bandwidth" = md !! "speed") ∧
             (dev !! "type" = Some (VStr "access_point") →
              ∃ md radio_1 : dict,
                dev !! "metadata" = Some (VDict md) ∧
                md !! "radio_1" = Some (VDict radio_1) ∧
                conn !! "bandwidth" = Some (get radio_1 "max_bandwidth" (VInt 0))))
          (tail (devices t)) (connections t).
Proof.
  run_builder t E.
  exact (bandwidth_follows_device_metadata sample_repr sample_client sample_now t E).
Defined.

Lemma endpoint_ids_hold_no_colon_sample :
  ∃ t, build_topology sample_repr (new_builder sample_client) sample_now = Some t ∧
  Forall (λ dev : dict,
            dev !! "type" = Some (VStr "endpoint") →
            ∃ s : string, dev !! "id" = Some (VStr ("device_" +:+ s)) ∧
                          ":"%char ∉ list_ascii_of_string s)
         (devices t).
Proof.
  run_builder t E.
  exact (endpoint_ids_hold_no_colon sample_repr sample_client sample_now t E).
Defined.

Lemma export_after_build_sample :
  ∃ t, build_topology sample_repr (new_builder sample_client) sample_now = Some t ∧
  ∃ b, export_to_babylon_format {| api_client := sample_client; topology := t |} = Some b ∧
       babylon_connections b = connections t ∧
       babylon_metadata b = metadata t ∧
       (λ m : dict, m !! "name") <$> models b = device_ids t ∧
       (λ m : dict, m !! "category") <$> models b = device_types t.
Proof.
  run_builder t E.
  exact (export_after_build sample_repr sample_client sample_now t E).
Defined.

Lemma devices_are_laid_out_sample :
  ∃ t, build_topology sample_repr (new_builder sample_client) sample_now = Some t ∧
  (∃ root : dict, head (devices t) = Some root ∧
                  root !! "position" = Some (position (VInt 0) (VInt 0) (VInt 0))) ∧
  Forall (λ dev : dict, dev !! "position" = Some (position (VInt 2) (VInt 0) (VInt 0)))
         (List.filter (has_type "interface") (devices t)) ∧
  Forall2 (λ (i : nat) (dev : dict),
             dev !! "position"
             = Some (position (VInt (-3)) (VInt 0) (VInt (Z.of_nat i * 2))))
          (seq 0 (length (List.filter (has_type "switch") (devices t))))
          (List.filter (has_type "switch") (devices t)) ∧
  Forall2 (λ (z : float) (dev : dict),
             dev !! "position" = Some (position (VInt 3) (VInt 0) (VFloat z)))
          (take (length (List.filter (has_type "access_point") (devices t))) ap_heights)
          (List.filter (has_type "access_point") (devices t)) ∧
  Forall2 (λ (z : float) (dev : dict),
             dev !! "position" = Some (position (VInt 5) (VInt 0) (VFloat z)))
          (take (length (List.filter (has_type "endpoint") (devices t))) endpoint_heights)
          (List.filter (has_type "endpoint") (devices t)).
Proof.
  run_builder t E.
  exact (devices_are_laid_out sample_repr sample_client sample_now t E).
Defined.

Lemma export_fills_missing_model_and_serial_sample :
  ∃ t b, build_topology sample_repr (new_builder sample_client) sample_now = Some t ∧
  export_to_babylon_format {| api_client := sample_client; topology := t |} = Some b ∧
  Forall2 (λ dev model : dict,
             dev !! "type" = Some (VStr "interface") ∨
             dev !! "type" = Some (VStr "endpoint") →
             dev !! "model" = None ∧ dev !! "serial" = None ∧
             model !! "properties"
             = Some (VDict (mkdict [("ip", get dev "ip" (VStr ""));
                                    ("model", VStr "");
                                    ("serial", VStr "")])))
          (devices t) (models b).
Proof.
  destruct (returns_Some (build_topology sample_repr (new_builder sample_client) sample_now))
    as [t E]; [vm_compute; reflexivity|].
  destruct (export_returns_after_build sample_repr sample_client sample_now t E) as [b Hb].
  exists t, b. split; [exact E|]. split; [exact Hb|].
  exact (export_fills_missing_model_and_serial sample_repr sample_client sample_now t b E Hb).
Defined.

Lemma unnamed_interfaces_share_an_id_sample :
  ∃ t, build_topology sample_repr (new_builder unnamed_client) sample_now = Some t ∧
  device_ids t !! 1%nat = Some (Some (VStr "interface_unknown")) ∧
  device_ids t !! 2%nat = Some (Some (VStr "interface_unknown")) ∧
  ¬ NoDup (device_ids t).
Proof.
  run_builder t E.
  apply (unnamed_interfaces_share_an_id sample_repr unnamed_client sample_now t
           [unnamed_record; unnamed_record] 0 1 unnamed_record unnamed_record E);
    try (vm_compute; reflexivity).
  discriminate.
Defined.

Lemma fetches_return_what_was_answered_sample :
  get_interfaces sample_client ≠ VList [] ∧
  ∃ path r (d : dict),
    session_get sample_client path = Some r ∧ ¬ (400 ≤ status_code r < 600) ∧
    json r = Some (VDict d) ∧ d !! "results" = Some (get_interfaces sample_client).
Proof.
  assert (H : get_interfaces sample_client ≠ VList [])
    by (vm_compute; discriminate).
  split; [exact H|].
  apply (fetches_return_what_was_answered sample_client (get_interfaces sample_client));
    [|exact H].
  apply elem_of_cons. by left.
Defined.

Lemma build_topology_reads_six_answers_sample :
  host sample_client = host busier_client ∧
  Forall (λ path, session_get sample_client path = session_get busier_client path)
    topology_paths ∧
  build_topology sample_repr (new_builder sample_client) sample_now
  = build_topology sample_repr (new_builder busier_client) sample_now.
Proof.
  assert (H : Forall (λ path, session_get sample_client path = session_get busier_client path)
                topology_paths)
    by (repeat (constructor; [vm_compute; reflexivity|]); constructor).
  split; [reflexivity|]. split; [exact H|].
  exact (build_topology_reads_six_answers sample_repr sample_client busier_client sample_now
           eq_refl H).
Defined.
